(** * RegressionModel: OLS and logistic regression over pandas tables

    A shallow embedding of the class [RegressionModel] of [Lesson.ipynb]
    (the cell tagged [#si-exercise]) and the properties of its
    construction, its two estimators and its results dictionary.

    The class is written against numpy, scipy and pandas.  What those
    libraries compute on floating-point numbers is not part of the class:
    scalar arithmetic, [np.exp], [np.linalg.solve], [np.linalg.inv], [scipy.stats]
    and [scipy.optimize.minimize] are interfaces (type classes) here, and
    the theorems about the class hold for every implementation of them
    (the normal equations ask for arithmetic without rounding).  A small
    implementation on binary64 floats ([Module Float64]) runs the
    embedding on concrete tables. *)

From Stdlib Require Import String ZArith Bool Lia PeanoNat List Permutation Ring.
From Stdlib Require Import PrimFloat.
From Stdlib Require Import DecimalString.
Import ListNotations.

Set Implicit Arguments.

(** ** Exceptions and fallible computations *)

(** The Python exceptions the class and the library calls it makes can raise. *)
Inductive exn : Type :=
| RuntimeError (msg : string)
| ValueError (msg : string)
| IndexError (msg : string)
| LinAlgError (msg : string).

(** A call returns, raises, or takes a path through pandas that this
    development does not describe ([Unmodelled]: a DataFrame passed for
    [y] sends the estimators through two-dimensional broadcasting). *)
Inductive result (A : Type) : Type :=
| Ok (a : A)
| Raise (e : exn)
| Unmodelled.

Arguments Ok {A} a.
Arguments Raise {A} e.
Arguments Unmodelled {A}.

Definition bind {A B : Type} (c : result A) (k : A -> result B) : result B :=
  match c with
  | Ok a => k a
  | Raise e => Raise e
  | Unmodelled => Unmodelled
  end.

Declare Scope py_scope.
Delimit Scope py_scope with py.
Notation "x <- c ;; k" := (bind c (fun x => k))
  (at level 61, c at next level, right associativity) : py_scope.
Notation "' pat <- c ;; k" := (bind c (fun x => match x with pat => k end))
  (at level 61, pat pattern, c at next level, right associativity) : py_scope.
Local Open Scope py_scope.

(** [for i in range(...)] with an accumulator and a body that may raise. *)
Fixpoint for_each {I A : Type} (body : I -> A -> result A) (l : list I) (acc : A)
  : result A :=
  match l with
  | [] => Ok acc
  | i :: l' => acc' <- body i acc ;; for_each body l' acc'
  end.

(** ** Python dictionaries

    A [dict] keeps its keys in insertion order; assigning to a key that is
    present replaces the value where it stands. *)
Definition dict (V : Type) : Type := list (string * V).

Fixpoint dict_set {V : Type} (d : dict V) (key : string) (v : V) : dict V :=
  match d with
  | [] => [(key, v)]
  | (key', v') :: d' =>
      if String.eqb key' key then (key', v) :: d'
      else (key', v') :: dict_set d' key v
  end.

Fixpoint dict_get {V : Type} (d : dict V) (key : string) : option V :=
  match d with
  | [] => None
  | (key', v') :: d' => if String.eqb key' key then Some v' else dict_get d' key
  end.

Definition keys {V : Type} (d : dict V) : list string := map fst d.

(** [enumerate(l)] *)
Definition enumerate {A : Type} (l : list A) : list (nat * A) :=
  combine (seq 0 (length l)) l.

(** The loop [for i in enumerate(names): d[i[1]] = f(i[0])], started at
    position [s] on the dictionary [d]. *)
Definition assign_all {V : Type} (f : nat -> V) (s : nat) (names : list string)
           (d : dict V) : dict V :=
  fold_left (fun d i => dict_set d (snd i) (f (fst i)))
            (combine (seq s (length names)) names) d.

(** ** Row labels *)

Inductive label : Type :=
| LInt (z : Z)
| LStr (s : string).

Definition label_eqb (a b : label) : bool :=
  match a, b with
  | LInt x, LInt y => Z.eqb x y
  | LStr s, LStr t => String.eqb s t
  | _, _ => false
  end.

(** [pd.RangeIndex(n)]: the labels 0, 1, ..., n-1. *)
Definition RangeIndex (n : nat) : list label :=
  map (fun i => LInt (Z.of_nat i)) (seq 0 n).

Definition in_range (n : nat) (l : label) : bool :=
  match l with
  | LInt z => (0 <=? z)%Z && (z <? Z.of_nat n)%Z
  | LStr _ => false
  end.

Fixpoint index_eqb (a b : list label) : bool :=
  match a, b with
  | [], [] => true
  | x :: a', y :: b' => label_eqb x y && index_eqb a' b'
  | _, _ => false
  end.

Definition index_mem (l : label) (ix : list label) : bool :=
  existsb (label_eqb l) ix.

Fixpoint is_unique (ix : list label) : bool :=
  match ix with
  | [] => true
  | l :: ix' => negb (index_mem l ix') && is_unique ix'
  end.

(** ** Numerical interfaces

    The element type of arrays with numpy's scalar operations on it.
    [of_int] is the conversion numpy applies to a Python [int] operand. *)
Class Scalar (F : Type) : Type := {
  of_int : Z -> F;
  nan : F;
  fadd : F -> F -> F;
  fsub : F -> F -> F;
  fmul : F -> F -> F;
  fdiv : F -> F -> F;
  fneg : F -> F;
  fsqrt : F -> F;
  fabs : F -> F
}.

(** [np.exp] and [np.log]. *)
Class Transcendental (F : Type) : Type := {
  fexp : F -> F;
  flog : F -> F
}.

Declare Scope num_scope.
Delimit Scope num_scope with num.
Notation "a + b" := (fadd a b) : num_scope.
Notation "a - b" := (fsub a b) : num_scope.
Notation "a * b" := (fmul a b) : num_scope.
Notation "a / b" := (fdiv a b) : num_scope.
Notation "- a" := (fneg a) : num_scope.

(** A two-dimensional [ndarray], row by row. *)
Definition matrix (F : Type) : Type := list (list F).

(** [np.linalg.solve] and [np.linalg.inv]; both raise [LinAlgError] on a
    matrix they find singular. *)
Class Linalg (F : Type) : Type := {
  solve : matrix F -> matrix F -> result (matrix F);
  inv : matrix F -> result (matrix F)
}.

(** [np.mean] of a Series, and the survival functions [scipy.stats.t.sf]
    (upper tail of Student's t with the given degrees of freedom) and
    [scipy.stats.norm.sf] (upper tail 1 - Phi of the standard normal). *)
Class Stats (F : Type) : Type := {
  mean : list F -> F;
  t_sf : F -> Z -> F;
  norm_sf : F -> F
}.

(** What [scipy.optimize.minimize] returns, as far as the class can see it. *)
Record OptimizeResult (F : Type) : Type := mkOptimizeResult {
  opt_x : list F;
  opt_success : bool
}.

(** [minimize(fun, x0, jac=jac)]: an exception of a callback propagates. *)
Class Minimizer (F : Type) : Type := {
  minimize : (list F -> result F) -> list F -> (list F -> result (list F)) ->
             result (OptimizeResult F)
}.

(** ** pandas tables *)

Section Tables.
Context {F : Type} {SC : Scalar F}.

Record Series : Type := mkSeries {
  s_index : list label;
  s_values : list F
}.

(** A DataFrame holds its row labels and its named columns, in order. *)
Record DataFrame : Type := mkFrame {
  df_index : list label;
  df_columns : list (string * list F)
}.

(** [x.columns] *)
Definition columns (x : DataFrame) : list string := map fst (df_columns x).

(** [np.shape(x)] *)
Definition shape (x : DataFrame) : nat * nat :=
  (length (df_index x), length (df_columns x)).

(** [pd.Series(values)]: a Series on the default index. *)
Definition pd_Series (values : list F) : Series :=
  mkSeries (RangeIndex (length values)) values.

(** [s.get(l)]: the value at the first row labelled [l]. *)
Fixpoint loc (ix : list label) (vs : list F) (l : label) : option F :=
  match ix, vs with
  | l' :: ix', v :: vs' => if label_eqb l' l then Some v else loc ix' vs' l
  | _, _ => None
  end.

(** [s.reindex(target)]: label by label, NaN where [s] has no such label
    (pandas requires, and every call below has, a duplicate-free [s]). *)
Definition reindex (s : Series) (target : list label) : list F :=
  map (fun l => match loc (s_index s) (s_values s) l with
                | Some v => v
                | None => nan
                end) target.

(** [frame[name] = values]: every column of that name takes the new
    values where it stands; without one, a new last column is appended. *)
Definition set_column (cols : list (string * list F)) (name : string)
           (values : list F) : list (string * list F) :=
  if existsb (fun c => String.eqb (fst c) name) cols
  then map (fun c => if String.eqb (fst c) name then (fst c, values) else c) cols
  else cols ++ [(name, values)].

(** [frame[name]] where one column has that name. *)
Definition get_column (cols : list (string * list F)) (name : string)
  : option (list F) :=
  option_map snd (find (fun c => String.eqb (fst c) name) cols).

(** [x.assign(name=s)]: a copy of [x] with the Series aligned to the rows
    of [x] by label and stored under [name]. *)
Definition assign (x : DataFrame) (name : string) (s : Series) : DataFrame :=
  mkFrame (df_index x)
          (set_column (df_columns x) name (reindex s (df_index x))).

(** [x.iloc[i]] as an array, by position. *)
Definition iloc_row (x : DataFrame) (i : nat) : result (list F) :=
  if i <? length (df_index x)
  then Ok (map (fun c => nth i (snd c) nan) (df_columns x))
  else Raise (IndexError "single positional indexer is out-of-bounds").

Definition iloc (s : Series) (i : nat) : result F :=
  match nth_error (s_values s) i with
  | Some v => Ok v
  | None => Raise (IndexError "single positional indexer is out-of-bounds")
  end.

(** [x.values]: the rows of the table. *)
Definition rows (x : DataFrame) : matrix F :=
  map (fun i => map (fun c => nth i (snd c) nan) (df_columns x))
      (seq 0 (length (df_index x))).
End Tables.

Arguments Series F : clear implicits.
Arguments DataFrame F : clear implicits.

(** ** numpy arrays *)

Section Arrays.
Context {F : Type} {SC : Scalar F}.
Local Open Scope num_scope.

Definition zero : F := of_int 0.
Definition one : F := of_int 1.

Definition vsum (v : list F) : F := fold_right fadd zero v.

(** Element-wise operations on arrays of one length. *)
Definition vmul (u v : list F) : list F :=
  map (fun ab => fst ab * snd ab) (combine u v).
Definition vadd (u v : list F) : list F :=
  map (fun ab => fst ab + snd ab) (combine u v).
Definition vsub (u v : list F) : list F :=
  map (fun ab => fst ab - snd ab) (combine u v).
Definition vdiv (u v : list F) : list F :=
  map (fun ab => fst ab / snd ab) (combine u v).

(** [np.dot] of two vectors: the sum of the products (numpy leaves the
    order of the additions to its BLAS). *)
Definition dot (u v : list F) : F := vsum (vmul u v).

(** [np.dot] of a matrix and a vector. *)
Definition matvec (m : matrix F) (v : list F) : list F :=
  map (fun r => dot r v) m.




(** [np.eye(k)] *)
Definition eye (k : nat) : matrix F :=
  map (fun i => map (fun j => if i =? j then one else zero) (seq 0 k)) (seq 0 k).

(** [s * m] for a scalar [s], and [np.sqrt(m)], element by element. *)
Definition scale (s : F) (m : matrix F) : matrix F := map (map (fmul s)) m.
Definition msqrt (m : matrix F) : matrix F := map (map fsqrt) m.

(** [np.diag(m)] of a square matrix. *)
Definition diag (m : matrix F) : list F :=
  map (fun i => nth i (nth i m []) nan) (seq 0 (length m)).

(** [x.T.dot(x)]: the entry at (a, b) is the product of columns a and b. *)
Definition xtx (x : DataFrame F) : matrix F :=
  let cs := map snd (df_columns x) in
  map (fun ca => map (fun cb => dot ca cb) cs) cs.

(** [x.T.dot(v)] for values [v] already aligned with the rows of [x]. *)
Definition xt_dot (x : DataFrame F) (v : list F) : list F :=
  map (fun c => dot (snd c) v) (df_columns x).

(** [x.dot(beta)] for an array [beta]: by position. *)
Definition x_dot (x : DataFrame F) (beta : list F) : list F :=
  matvec (rows x) beta.

(** How often a label occurs in an index. *)
Definition count_label (l : label) (ix : list label) : nat :=
  length (filter (label_eqb l) ix).

(** The two indexes hold the same labels, each as often in one as in the
    other. *)
Definition same_labels (ix iy : list label) : bool :=
  (length ix =? length iy)
  && forallb (fun l => count_label l ix =? count_label l iy) ix.

(** The alignment pandas performs in [x.T.dot(y)] and in
    [y - x.dot(beta)] for a Series [y]: equal indexes pair the rows by
    position; duplicate-free indexes holding the same labels pair them by
    label, and the values of [y] come back in the row order of [x].
    Otherwise [DataFrame.dot] raises [ValueError]: when the union of the
    two indexes is longer than one of them (different lengths, or
    different labels), "matrices are not aligned"; when they hold the
    same labels, some repeated, in another order, the refusal to reindex
    on duplicate labels. *)
Definition align (ix : list label) (ys : Series F) : result (list F) :=
  if index_eqb ix (s_index ys) then Ok (s_values ys)
  else if is_unique ix && is_unique (s_index ys)
          && (length ix =? length (s_index ys))
          && forallb (fun l => index_mem l (s_index ys)) ix
       then Ok (reindex ys ix)
       else if same_labels ix (s_index ys)
            then Raise (ValueError "cannot reindex on an axis with duplicate labels")
            else Raise (ValueError "matrices are not aligned").
End Arrays.

(** ** The class *)

(** What [y] may be once the constructor has accepted it. *)
Inductive response (F : Type) : Type :=
| YSeries (s : Series F)
| YFrame (d : DataFrame F).

Arguments YSeries {F} s.
Arguments YFrame {F} d.

(** A line written by [print]. *)
Inductive printed (F : Type) : Type :=
| PrintArray (v : list F)
| PrintInt (n : nat).

Arguments PrintArray {F} v.
Arguments PrintInt {F} n.

(** The arguments of the constructor are Python values of any type. *)
Inductive pyval (F : Type) : Type :=
| PyFrame (d : DataFrame F)
| PySeries (s : Series F)
| PyBool (b : bool)
| PyStr (s : string)
| PyInt (z : Z)
| PyNone.

Arguments PyFrame {F} d.
Arguments PySeries {F} s.
Arguments PyBool {F} b.
Arguments PyStr {F} s.
Arguments PyInt {F} z.
Arguments PyNone {F}.

Section Class.
Context {F : Type} {SC : Scalar F} {TR : Transcendental F} {LA : Linalg F}
        {ST : Stats F} {MI : Minimizer F}.
Local Open Scope num_scope.

(** The attributes of an instance; [results] does not exist before a fit. *)
Record RegressionModel : Type := mkModel {
  self_x : DataFrame F;
  self_y : response F;
  self_create_intercept : bool;
  self_regression_type : string;
  self_results : option (dict (dict F))
}.

Definition set_results (self : RegressionModel) (r : dict (dict F))
  : RegressionModel :=
  mkModel (self_x self) (self_y self) (self_create_intercept self)
          (self_regression_type self) (Some r).

(** [add_intercept]: the method reads and rebinds [self.x] only, so it is
    the function from the old table to the new one.
    [self.x.assign(intercept=pd.Series([1]*np.shape(self.x)[0]))] *)
Definition add_intercept (x : DataFrame F) : DataFrame F :=
  assign x "intercept" (pd_Series (repeat one (fst (shape x)))).

Definition __init__ (x y create_intercept regression_type : pyval F)
  : result RegressionModel :=
  xd <- match x with
        | PyFrame d => Ok d
        | _ => Raise (RuntimeError "Matrix 'x' is not a DataFrame.")
        end ;;
  yv <- match y with
        | PyFrame d => Ok (YFrame d)
        | PySeries s => Ok (YSeries s)
        | _ => Raise (RuntimeError "Matrix 'y' is not a DataFrame.")
        end ;;
  flag <- match create_intercept with
          | PyBool b => Ok b
          | _ => Raise (RuntimeError
                   "Parameter 'create_intercept' must be a boolean value.")
          end ;;
  let xd' := if flag then add_intercept xd else xd in
  rt <- match regression_type with
        | PyStr s =>
            if String.eqb s "ols" then Ok s
            else if String.eqb s "logit" then Ok s
            else Raise (RuntimeError
              "Only OLS and Logistic regressions ('ols' or 'logit', respectively) are supported")
        | _ => Raise (RuntimeError
              "Parameter 'regression_type' must be a string with value 'ols' or 'logit'.")
        end ;;
  Ok (mkModel xd' yv flag rt None).

(** The loop that fills [self.results]: one assignment per column, in
    column order, each storing a four-entry dict. *)
Definition store_results (stat_key : string) (names : list string)
           (beta se stat pv : list F) : dict (dict F) :=
  fold_left
    (fun d i =>
       dict_set d (snd i)
         [("coefficient"%string, nth (fst i) beta nan);
          ("standard_error"%string, nth (fst i) se nan);
          (stat_key, nth (fst i) stat nan);
          ("p_value"%string, nth (fst i) pv nan)])
    (enumerate names) [].

Definition ols_regression (self : RegressionModel) : result RegressionModel :=
  let x := self_x self in
  let y := self_y self in
  let '(n, k) := shape x in
  match y with
  | YFrame yd => Unmodelled
  | YSeries ys =>
      z <- solve (xtx x) (eye k) ;;
      yv <- align (df_index x) ys ;;
      let beta := matvec z (xt_dot x yv) in
      let eps := vsub yv (x_dot x beta) in
      let shat := dot eps eps / of_int (Z.of_nat n - Z.of_nat k) in
      z' <- solve (xtx x) (eye k) ;;
      let covar := scale shat z' in
      let var := diag covar in
      let serror := map fsqrt var in
      let tstat := map (fun i => snd i / nth (fst i) serror nan) (enumerate beta) in
      let pval := map (fun t => t_sf t (Z.of_nat n - Z.of_nat k)) tstat in
      Ok (set_results self
            (store_results "t_stat" (columns x) beta serror tstat pval))
  end.






(** The closures of [logistic_regression]. *)
Definition logistic_function (x : DataFrame F) (beta : list F) : list F :=
  map (fun l => one / (one + fexp (- l))) (x_dot x beta).

Definition log_likelihood (x : DataFrame F) (y : Series F) (beta : list F)
  : result F :=
  tll <- for_each
           (fun i tll =>
              xi <- iloc_row x i ;;
              yi <- iloc y i ;;
              let linear_comb := dot xi beta in
              let p := fexp linear_comb / (one + fexp linear_comb) in
              let oll := yi * flog p + (one - yi) * flog (one - p) in
              Ok (tll + oll))
           (seq 0 (length (s_index y))) zero ;;
  Ok (- tll).

Definition gradient (x : DataFrame F) (y : Series F) (beta : list F)
  : result (list F) :=
  gradient1 <- for_each
           (fun i gradient1 =>
              xi <- iloc_row x i ;;
              yi <- iloc y i ;;
              let linear_comb := dot xi beta in
              let p := fexp linear_comb / (one + fexp linear_comb) in
              Ok (vadd gradient1 (map (fun v => v * (yi - p)) xi)))
           (seq 0 (length (s_index y))) (repeat zero (length beta)) ;;
  Ok (map fneg gradient1).

(** Returns the instance after the fit with the lines it printed (what
    was printed before an exception is not kept). *)
Definition logistic_regression (self : RegressionModel)
  : result (RegressionModel * list (printed F)) :=
  let x := self_x self in
  let y := self_y self in
  let '(n, k) := shape x in
  match y with
  | YFrame yd => Unmodelled
  | YSeries ys =>
      (* np.full(k, 0.10): the literal is the quotient 1 / 10, rounded *)
      let beta := repeat (of_int 1 / of_int 10) k in
      let logtransform := x_dot x beta in
      let p := map (fun l => fexp l / (one + fexp l)) logtransform in
      minim <- minimize (log_likelihood x ys) beta (gradient x ys) ;;
      let beta := opt_x minim in
      let p := logistic_function x beta in
      let sigmahat2 :=
        of_int (Z.of_nat n) * mean (vmul p (map (fun v => one - v) p)) in
      xtx_inv <- inv (xtx x) ;;
      let covmatrix := scale sigmahat2 xtx_inv in
      let sigmahat := msqrt covmatrix in
      let se := diag sigmahat in
      let zstat := vdiv beta se in
      let pvals := map (fun z => of_int 2 * norm_sf (fabs z)) zstat in
      Ok (set_results self
            (store_results "z_stat" (columns x) beta se zstat pvals),
          [PrintArray beta; PrintArray se; PrintInt (length zstat);
           PrintArray pvals])
  end.

(** ([summary] formats [self.results] for the console and changes
    nothing; it is modelled apart, in Section Summary.) *)
Definition fit_model (self : RegressionModel)
  : result (RegressionModel * list (printed F)) :=
  if String.eqb (self_regression_type self) "ols" then
    self' <- ols_regression self ;; Ok (self', [])
  else if String.eqb (self_regression_type self) "logit" then
    logistic_regression self
  else Raise (RuntimeError "Wrong Regression Input").
End Class.

Arguments RegressionModel F : clear implicits.

(** ** The quantities of a fit

    Names for what the estimators compute on the way, as functions of
    what the library calls returned. *)

Section Quantities.
Context {F : Type} {SC : Scalar F} {TR : Transcendental F} {LA : Linalg F}
        {ST : Stats F}.
Local Open Scope num_scope.
Implicit Types (x : DataFrame F) (ys : Series F).
Implicit Types (r : list F) (m : matrix F).

(** What aligning [pd.Series([1]*n)] with row labels [ix] gives. *)
Definition aligned_ones (n : nat) (ix : list label) : list F :=
  map (fun l => if in_range n l then one else nan) ix.

(** The degrees of freedom [n - k], a Python [int]. *)
Definition dof x : Z :=
  (Z.of_nat (fst (shape x)) - Z.of_nat (snd (shape x)))%Z.

(** The quantities [ols_regression] computes from the design matrix [x],
    the aligned response [yv] and the two answers [z], [z'] of
    [np.linalg.solve]. *)
Definition ols_beta x (z : matrix F) (yv : list F) : list F :=
  matvec z (xt_dot x yv).

Definition ols_shat x z yv : F :=
  let eps := vsub yv (x_dot x (ols_beta x z yv)) in
  dot eps eps / of_int (dof x).

Definition ols_serror x z yv (z' : matrix F) : list F :=
  map fsqrt (diag (scale (ols_shat x z yv) z')).

Definition ols_tstat x z yv z' : list F :=
  map (fun i => snd i / nth (fst i) (ols_serror x z yv z') nan)
      (enumerate (ols_beta x z yv)).

Definition ols_pval x z yv z' : list F :=
  map (fun t => t_sf t (dof x)) (ols_tstat x z yv z').

Definition ols_results x z yv z' : dict (dict F) :=
  store_results "t_stat" (columns x) (ols_beta x z yv) (ols_serror x z yv z')
                (ols_tstat x z yv z') (ols_pval x z yv z').

(** The quantities [logistic_regression] computes from [x], the optimizer's
    [beta] and the answer [xi] of [np.linalg.inv]. *)
Definition logit_sigmahat2 x (beta : list F) : F :=
  let p := logistic_function x beta in
  of_int (Z.of_nat (fst (shape x))) * mean (vmul p (map (fun v => one - v) p)).

Definition logit_covmatrix x beta (xi : matrix F) : matrix F :=
  scale (logit_sigmahat2 x beta) xi.

Definition logit_se x beta xi : list F := diag (msqrt (logit_covmatrix x beta xi)).

Definition logit_zstat x beta xi : list F := vdiv beta (logit_se x beta xi).

Definition logit_pvals x beta xi : list F :=
  map (fun z => of_int 2 * norm_sf (fabs z)) (logit_zstat x beta xi).

Definition logit_results x beta xi : dict (dict F) :=
  store_results "z_stat" (columns x) beta (logit_se x beta xi)
                (logit_zstat x beta xi) (logit_pvals x beta xi).

Definition logit_prints x beta xi : list (printed F) :=
  [PrintArray beta; PrintArray (logit_se x beta xi);
   PrintInt (length (logit_zstat x beta xi)); PrintArray (logit_pvals x beta xi)].

(** The starting point [np.full(k, 0.10)]. *)
Definition beta0 x : list F := repeat (of_int 1 / of_int 10) (snd (shape x)).

(** The fitted probabilities in the words of the specification,
    observation by observation: p_i = sigma(x_i . beta) with
    sigma(t) = 1 / (1 + exp(-t)).  [logistic_function_rows] compares it
    with the closure [logistic_function] of the class. *)
Definition fitted_probabilities x (beta : list F) : list F :=
  map (fun x_i => one / (one + fexp (- dot x_i beta))) (rows x).


End Quantities.

(** ** An implementation of the interfaces on binary64 floats

    Arithmetic and square root are the IEEE 754 operations numpy applies
    to [float64].  The linear solver is LAPACK's, step by step as its
    reference implementation has it, and the optimizer is scipy's as far
    as it takes no step.  The exponential, the logarithm, the mean and
    the tail probabilities are numerical stand-ins written with the IEEE
    operations (series, quadrature): they agree with libm and scipy to a
    few digits only.  All of them serve to run the class on concrete
    tables; no theorem of the class depends on them. *)
Module Float64.
Local Open Scope float_scope.

Fixpoint of_pos (p : positive) : float :=
  match p with
  | xH => 1
  | xO q => 2 * of_pos q
  | xI q => 2 * of_pos q + 1
  end.

Definition of_Z (z : Z) : float :=
  match z with
  | Z0 => 0
  | Zpos p => of_pos p
  | Zneg p => - of_pos p
  end.

Definition is_nan (a : float) : bool := negb (a =? a).

Fixpoint iterate {A : Type} (n : nat) (f : A -> A) (a : A) : A :=
  match n with
  | O => a
  | S n' => iterate n' f (f a)
  end.

(** The exponential: 0 below -746 and infinite above 710, where the
    value underflows and overflows (so also at the infinities); between
    them thirty terms of its series at x / 1024, squared ten times. *)
Definition exp64 (a : float) : float :=
  if a <? -746 then 0
  else if 710 <? a then infinity
  else
    let r := a / 1024 in
    let series :=
      fold_right (fun i acc => 1 + r * acc / of_Z (Z.of_nat i)) 1
                 (seq 1 30) in
    iterate 10 (fun v => v * v) series.

(** The logarithm, by Halley's iteration on [exp]. *)
Definition log64 (a : float) : float :=
  if a <? 0 then PrimFloat.nan
  else if a =? 0 then neg_infinity
  else iterate 60 (fun v => let e := exp64 v in v + 2 * (a - e) / (a + e)) 0.

Definition sum (v : list float) : float := fold_right PrimFloat.add 0 v.

(** [Series.mean] skips NaN entries. *)
Definition mean64 (v : list float) : float :=
  let kept := filter (fun a => negb (is_nan a)) v in
  sum kept / of_Z (Z.of_nat (length kept)).

Definition pi : float := 0x1.921fb54442d18p+1.

(** Upper tail of the standard normal: near the centre
    1/2 - phi(z) (z + z^3/3 + z^5/(3*5) + ...), and further out the
    continued fraction phi(z) / (z + 1/(z + 2/(z + ...))). *)
Definition norm_sf64 (z : float) : float :=
  let phi := exp64 (- (z * z) / 2) / sqrt (2 * pi) in
  let series :=
    fold_right (fun i acc => 1 + z * z * acc / of_Z (2 * Z.of_nat i + 1)) 1
               (seq 1 120) in
  let tail a :=
    phi / fold_right (fun i acc => a + of_Z (Z.of_nat i) / acc) a (seq 1 100) in
  if abs z <? 3 then (1 / 2) - phi * z * series
  else if 0 <? z then tail z
  else 1 - tail (- z).

(** The constant of Student's density: 1/pi for one degree of freedom,
    1/(2 sqrt 2) for two, and two degrees further by
    c(v+2) = c(v) (v+1)/v sqrt(v/(v+2)). *)
Fixpoint t_const (fuel : nat) (v : Z) : float :=
  match fuel with
  | O => PrimFloat.nan
  | S fuel' =>
      if (v =? 1)%Z then 1 / pi
      else if (v =? 2)%Z then 1 / (2 * sqrt 2)
      else let w := of_Z (v - 2) in
           t_const fuel' (v - 2) * ((w + 1) / w) * sqrt (w / (w + 2))
  end.

Definition t_pdf (df : Z) (t : float) : float :=
  let root := sqrt (1 + t * t / of_Z df) in
  t_const (Z.to_nat df) df
  / fold_right (fun _ acc => root * acc) 1 (seq 0 (Z.to_nat df + 1)).

(** Upper tail of Student's t: 1/2 minus Simpson's rule over [0, t] on 200
    intervals; NaN without a positive number of degrees of freedom. *)
Definition t_sf64 (t : float) (df : Z) : float :=
  if (df <=? 0)%Z then PrimFloat.nan
  else
    let h := t / 200 in
    let f i := t_pdf df (of_Z (Z.of_nat i) * h) in
    let inner :=
      sum (map (fun i => (if Nat.even i then 2 else 4) * f i) (seq 1 199)) in
    (1 / 2) - h / 3 * (f 0%nat + inner + f 200%nat).

(** LAPACK's [dgesv], behind both [np.linalg.solve] and
    [np.linalg.inv], on the rows of [a | b], as the reference
    implementation computes it ([dgetf2], then [dtrsm] twice), every
    operation rounded on its own.  The factorisation takes as pivot of a
    column its first entry of largest magnitude ([idamax]), swaps that row
    up, and subtracts from each row below the pivot row times the
    multiplier, which is the entry times the reciprocal of the pivot (the
    quotient, for a pivot below the smallest normal number); the right-hand
    sides go through the same steps.  A pivot that is exactly zero is
    numpy's [LinAlgError].  The triangular system is then solved from the
    last row up. *)
Definition sfmin : float := 0x1p-1022.

Fixpoint idamax (c : nat) (rows : list (list float)) (i best : nat)
         (big : float) : nat :=
  match rows with
  | [] => best
  | r :: rows' =>
      if big <? abs (nth c r 0) then idamax c rows' (S i) i (abs (nth c r 0))
      else idamax c rows' (S i) best big
  end.

(** The row at position [i] and the first row change places. *)
Definition swap_to_front (i : nat) (rows : list (list float))
  : list (list float) :=
  match i, rows with
  | S i', r0 :: tl => nth i' tl [] :: firstn i' tl ++ r0 :: skipn (S i') tl
  | _, _ => rows
  end.

(** One row below the pivot row [prow] of column [c]: the multiplier is
    kept in column [c]; an entry of the pivot row that is zero is skipped,
    as BLAS does. *)
Definition reduce (c : nat) (prow r : list float) : list float :=
  let p := nth c prow 0 in
  let l := if sfmin <=? abs p then nth c r 0 * (1 / p) else nth c r 0 / p in
  firstn c r ++ l
  :: map (fun rp => if snd rp =? 0 then fst rp else fst rp - l * snd rp)
         (combine (skipn (S c) r) (skipn (S c) prow)).

Fixpoint getrf (fuel c : nat) (done rest : list (list float))
  : result (list (list float)) :=
  match fuel, rest with
  | S fuel', r0 :: tl =>
      match swap_to_front (idamax c tl 1 0 (abs (nth c r0 0))) rest with
      | prow :: others =>
          if nth c prow 0 =? 0 then Raise (LinAlgError "Singular matrix")
          else getrf fuel' (S c) (done ++ [prow]) (map (reduce c prow) others)
      | [] => Ok done
      end
  | _, _ => Ok done
  end.

(** Row [i] of the triangular system, the rows after it being [solved]:
    their multiples are subtracted from the last one on, then the
    diagonal entry divides. *)
Definition solve_row (k i : nat) (row : list float)
           (solved : list (list float)) : list float :=
  let acc :=
    fold_right
      (fun jx acc =>
         map (fun ax => if snd ax =? 0 then fst ax
                        else fst ax - snd ax * nth (fst jx) row 0)
             (combine acc (snd jx)))
      (skipn k row) (combine (seq (S i) (k - S i)) solved) in
  map (fun v => if v =? 0 then v else v / nth i row 0) acc.

Definition getrs (k : nat) (rows : list (list float)) : list (list float) :=
  fold_right (fun irow solved => solve_row k (fst irow) (snd irow) solved :: solved)
             [] (combine (seq 0 k) rows).

Definition solve64 (a b : matrix float) : result (matrix float) :=
  let k := length a in
  rows <- getrf k 0 [] (map (fun ab => fst ab ++ snd ab) (combine a b)) ;;
  Ok (getrs k rows).

Definition eye64 (k : nat) : matrix float :=
  map (fun i => map (fun j => if Nat.eqb i j then 1 else 0) (seq 0 k)) (seq 0 k).

Definition inv64 (a : matrix float) : result (matrix float) :=
  solve64 a (eye64 (length a)).

(** [scipy.optimize.minimize(f, x0, jac=jac)], which is BFGS, as far as
    it is the same on every machine: it evaluates [f] and [jac] at [x0]
    and iterates while the largest magnitude in the gradient, [gnorm], is
    above [gtol] = 1e-5.  When it is not (which is also the case of a NaN,
    that [np.amax] hands on), no step is taken and [x0] is returned, with
    [success] false exactly when [gnorm], the value of [f] or an entry of
    [x0] is NaN.  The iterations and their line search are not modelled. *)
Definition gtol : float := 0x1.4f8b588e368f1p-17.

Definition amax64 (v : list float) : float :=
  fold_left (fun m a => if is_nan m then m
                        else if is_nan a then a
                        else if m <? a then a else m)
            v neg_infinity.

Definition minimize64 (f : list float -> result float) (x0 : list float)
           (jac : list float -> result (list float))
  : result (OptimizeResult float) :=
  fval <- f x0 ;;
  gfk <- jac x0 ;;
  match gfk with
  | [] => Unmodelled
  | _ :: _ =>
      let gnorm := amax64 (map abs gfk) in
      if gtol <? gnorm then Unmodelled
      else Ok (mkOptimizeResult
                 x0 (negb (is_nan gnorm || is_nan fval || existsb is_nan x0)))
  end.

#[export] Instance scalar : Scalar float := {|
  of_int := of_Z;
  nan := PrimFloat.nan;
  fadd := PrimFloat.add;
  fsub := PrimFloat.sub;
  fmul := PrimFloat.mul;
  fdiv := PrimFloat.div;
  fneg := PrimFloat.opp;
  fsqrt := PrimFloat.sqrt;
  fabs := PrimFloat.abs
|}.

#[export] Instance transcendental : Transcendental float := {|
  fexp := exp64;
  flog := log64
|}.

#[export] Instance linalg : Linalg float := {|
  solve := solve64;
  inv := inv64
|}.

#[export] Instance stats : Stats float := {|
  mean := mean64;
  t_sf := t_sf64;
  norm_sf := norm_sf64
|}.

#[export] Instance minimizer : Minimizer float := {|
  minimize := minimize64
|}.
End Float64.

(** ** An implementation of the interfaces on the integers

    Exact arithmetic: addition, subtraction and multiplication are a ring,
    and every other operation is the real one rounded down (a tail
    probability is below 1, so its integer part is 0).  There is no NaN
    among the integers; 0 stands in for it.  The solver covers the systems
    of order at most two whose solution is integral, by Cramer's rule. *)
Module Integers.
Local Open Scope Z_scope.

Definition divides_all (d : Z) (m : matrix Z) : bool :=
  forallb (forallb (fun v => v mod d =? 0)) m.

Definition solveZ (a b : matrix Z) : result (matrix Z) :=
  match a, b with
  | [], _ => Ok []
  | [[p]], _ =>
      if p =? 0 then Raise (LinAlgError "Singular matrix")
      else if divides_all p b then Ok (map (map (fun v => v / p)) b)
      else Unmodelled
  | [[p; q]; [r; s]], [b1; b2] =>
      let det := p * s - q * r in
      let sol := [map (fun uv => s * fst uv - q * snd uv) (combine b1 b2);
                  map (fun uv => p * snd uv - r * fst uv) (combine b1 b2)] in
      if det =? 0 then Raise (LinAlgError "Singular matrix")
      else if divides_all det sol then Ok (map (map (fun v => v / det)) sol)
      else Unmodelled
  | _, _ => Unmodelled
  end.

Definition eyeZ (k : nat) : matrix Z :=
  map (fun i => map (fun j => if Nat.eqb i j then 1 else 0) (seq 0 k)) (seq 0 k).

Definition meanZ (v : list Z) : Z :=
  fold_right Z.add 0 v / Z.of_nat (length v).

#[export] Instance scalar : Scalar Z := {|
  of_int := fun z => z;
  nan := 0;
  fadd := Z.add;
  fsub := Z.sub;
  fmul := Z.mul;
  fdiv := Z.div;
  fneg := Z.opp;
  fsqrt := Z.sqrt;
  fabs := Z.abs
|}.

#[export] Instance linalg : Linalg Z := {|
  solve := solveZ;
  inv := fun a => solveZ a (eyeZ (length a))
|}.

#[export] Instance stats : Stats Z := {|
  mean := meanZ;
  t_sf := fun _ _ => 0;
  norm_sf := fun _ => 0
|}.
End Integers.

(** ** The rest of the class: [summary]

    [summary] prints the results as a table.  Rounding and the text of a
    number are Python's and numpy's: an interface here. *)

(** [round(v, ndigits)] and [str(v)] (what ["{}".format(v)] inserts). *)
Class Display (F : Type) : Type := {
  pyround : F -> Z -> F;
  pystr : F -> string
}.

(** What [summary] can raise besides the exceptions of the class. *)
Inductive py_error : Type :=
| ClassError (e : exn)
| AttributeError (msg : string)
| KeyError (key : string).

(** [s * n] *)
Fixpoint str_mul (s : string) (n : nat) : string :=
  match n with
  | O => EmptyString
  | S n' => (s ++ str_mul s n')%string
  end.

(** [s.ljust(width)]: spaces are added on the right up to [width]; a
    longer string is returned as it is. *)
Definition ljust (s : string) (width : nat) : string :=
  (s ++ str_mul " " (width - String.length s))%string.

Definition newline : string := String (Ascii.ascii_of_nat 10) EmptyString.

Section Summary.
Context {F : Type} {DI : Display F}.

(** ["| {}".format(round(record[key], 3)).ljust(width)]; a missing key is
    a [KeyError]. *)
Definition cell (rec : dict F) (key : string) (width : nat)
  : py_error + string :=
  match dict_get rec key with
  | Some v => inr (ljust ("| " ++ pystr (pyround v 3)) width)
  | None => inl (KeyError key)
  end.

(** The line printed for one key of [self.results]; the four entries are
    read from left to right. *)
Definition summary_row (stat_key : string) (w_coef : nat)
           (r : dict (dict F)) (name : string) : py_error + string :=
  match dict_get r name with
  | None => inl (KeyError name)
  | Some rec =>
      match cell rec "coefficient" w_coef with
      | inl e => inl e
      | inr c1 =>
          match cell rec "standard_error" 17 with
          | inl e => inl e
          | inr c2 =>
              match cell rec stat_key 15 with
              | inl e => inl e
              | inr c3 =>
                  match cell rec "p_value" 15 with
                  | inl e => inl e
                  | inr c4 => inr (ljust name 25 ++ c1 ++ c2 ++ c3 ++ c4)%string
                  end
              end
          end
      end
  end.

(** [for i in self.results: print(...)]: the lines printed so far are
    kept when a row raises. *)
Fixpoint summary_rows (stat_key : string) (w_coef : nat) (r : dict (dict F))
         (names : list string) : list string * option py_error :=
  match names with
  | [] => ([], None)
  | name :: names' =>
      match summary_row stat_key w_coef r name with
      | inl e => ([], Some e)
      | inr line =>
          let rest := summary_rows stat_key w_coef r names' in
          (line :: fst rest, snd rest)
      end
  end.

Definition ols_header : string :=
  (ljust "Variable Name" 25 ++ ljust "| Coefficient" 15
   ++ ljust "| Standard Error" 17 ++ ljust "| T-Statistic" 15
   ++ ljust "| P-Value" 15 ++ newline ++ str_mul "-" 85)%string.

Definition logit_header : string :=
  (ljust "Variable Name" 25 ++ ljust "| Coefficient" 17
   ++ ljust "| Standard Error" 17 ++ ljust "| z-statistic" 15
   ++ ljust "| p-value" 15 ++ newline ++ str_mul "-" 85)%string.

(** The body of one branch: the header is printed, then [self.results]
    is read; before a fit the attribute does not exist. *)
Definition summary_table (header stat_key : string) (w_coef : nat)
           (results : option (dict (dict F))) : list string * option py_error :=
  match results with
  | None =>
      ([header],
       Some (AttributeError "'RegressionModel' object has no attribute 'results'"))
  | Some r =>
      let rows := summary_rows stat_key w_coef r (keys r) in
      (header :: fst rows, snd rows)
  end.

(** Returns the lines printed, one per call of [print], and the exception
    that ended the call, if any. *)
Definition summary (self : RegressionModel F) : list string * option py_error :=
  if String.eqb (self_regression_type self) "ols" then
    summary_table ols_header "t_stat" 15 (self_results self)
  else if String.eqb (self_regression_type self) "logit" then
    summary_table logit_header "z_stat" 17 (self_results self)
  else ([], Some (ClassError (RuntimeError "Nice try sport, no Probit here :)"))).
End Summary.

(** ** What a fit leaves in [self.results] *)

(** The key of the test statistic, by regression type. *)
Definition stat_key (regression_type : string) : string :=
  if String.eqb regression_type "ols" then "t_stat"%string else "z_stat"%string.

(** A record as the two estimators write it, and a dictionary of such
    records under distinct keys. *)
Definition fitted_record {F : Type} (key : string) (rec : dict F) : Prop :=
  exists b s t p,
    rec = [("coefficient"%string, b); ("standard_error"%string, s); (key, t);
           ("p_value"%string, p)].

Definition fitted_results {F : Type} (key : string) (r : dict (dict F)) : Prop :=
  NoDup (keys r) /\ forall name rec, In (name, rec) r -> fitted_record key rec.

(** ** The cells before the class: a firm's profit *)

Module Tutorial.
Section Profit.
Context {F : Type} {SC : Scalar F}.
Local Open Scope num_scope.

(** The first [profit]; the literal [0.5] is the quotient 1 / 2. *)
Definition profit (q : F) : F :=
  let p := of_int 300 - (of_int 1 / of_int 2) * q in
  let tr := p * q in
  let tc := of_int 4000 + of_int 45 * q in
  tr - tc.

(** [(profit(201) - profit(199))/2], the cell "Gradient at q=200". *)
Definition gradient_at_200 : F :=
  (profit (of_int 201) - profit (of_int 199)) / of_int 2.
End Profit.

(** The notebook then defines [profit] again, negated for [minimize]. *)
Module Negated.
Section Profit.
Context {F : Type} {SC : Scalar F}.
Local Open Scope num_scope.

Definition profit (q : F) : F :=
  let p := of_int 300 - (of_int 1 / of_int 2) * q in
  let tr := p * q in
  let tc := of_int 4000 + of_int 45 * q in
  let pi := tr - tc in
  of_int (-1) * pi.
End Profit.
End Negated.
End Tutorial.

(** ** Shapes of tables *)

Section Shapes.
Context {F : Type}.

(** pandas keeps every column as long as the index. *)
Definition rectangular (x : DataFrame F) : Prop :=
  Forall (fun c => length (snd c) = length (df_index x)) (df_columns x).

Definition well_formed (s : Series F) : Prop :=
  length (s_values s) = length (s_index s).

(** [x.iloc[:m]]: the first [m] rows. *)
Definition head_rows (m : nat) (x : DataFrame F) : DataFrame F :=
  mkFrame (firstn m (df_index x))
          (map (fun c => (fst c, firstn m (snd c))) (df_columns x)).
End Shapes.

(** ** The text of Python integers

    [round(v, 3)] of an [int] is the [int], and [str] writes it in decimal. *)
Module IntegerDisplay.
#[export] Instance display : Display Z := {|
  pyround := fun z _ => z;
  pystr := fun z => NilZero.string_of_int (Z.to_int z)
|}.
End IntegerDisplay.

(** ** Concrete tables *)

Module Data.
Import Float64.
Local Open Scope float_scope.

Definition rows3 : list label := [LInt 0; LInt 1; LInt 2].
Definition rows2 : list label := [LInt 0; LInt 1].

(** ** Construction *)

(** Two rows of [x] against three of [y]. *)
Definition x_two_rows : DataFrame float := mkFrame rows2 [("x"%string, [1; 2])].
Definition y_three_rows : Series float := mkSeries rows3 [1; 2; 3].

(** Row labels 1, 2 as a slice [data.loc[1:2]] leaves them; a table that
    has a column "intercept" already; a table with a repeated column name. *)
Definition x_sliced : DataFrame float := mkFrame [LInt 1; LInt 2] [("x"%string, [1; 2])].

(** Row labels 1, 0, as sorting in descending order leaves them, and row
    labels 0, 0, 1, as a concatenation leaves them. *)
Definition x_reversed : DataFrame float := mkFrame [LInt 1; LInt 0] [("x"%string, [1; 2])].
Definition x_repeated_label : DataFrame float :=
  mkFrame [LInt 0; LInt 0; LInt 1] [("x"%string, [1; 2; 3])].
Definition x_with_intercept : DataFrame float :=
  mkFrame rows2 [("intercept"%string, [7; 8]); ("x"%string, [1; 2])].
Definition x_repeated_name : DataFrame float :=
  mkFrame rows3 [("a"%string, [1; 0; 0]); ("a"%string, [0; 1; 0])].

(** ** Ordinary least squares *)

Definition x3 : DataFrame float := mkFrame rows3 [("x"%string, [1; 2; 3])].
Definition y3 : Series float := mkSeries rows3 [2; 4; 6.5].

(** [RegressionModel(x3, y3)] *)
Definition ols3 : RegressionModel float :=
  mkModel (mkFrame rows3 [("x"%string, [1; 2; 3]); ("intercept"%string, [1; 1; 1])])
          (YSeries y3) true "ols" None.

Definition ols3_fitted : RegressionModel float :=
  Eval vm_compute in
    match fit_model ols3 with Ok (self', _) => self' | _ => ols3 end.

(** One observation, one column: n = k. *)
Definition ols_n_equals_k : RegressionModel float :=
  mkModel (mkFrame [LInt 0] [("x"%string, [1])]) (YSeries (mkSeries [LInt 0] [2]))
          false "ols" None.


(** ** Logistic regression *)

(** The starting point of the optimizer, 0.1 as binary64 has it. *)
Definition tenth : float := 0x1.999999999999ap-4.

Definition x4 : DataFrame float :=
  mkFrame [LInt 0; LInt 1; LInt 2; LInt 3]
          [("x"%string, [1; 2; 3; 4]); ("intercept"%string, [1; 1; 1; 1])].
Definition y4 : Series float := mkSeries [LInt 0; LInt 1; LInt 2; LInt 3] [0; 1; 0; 1].

(** Two columns in units of 2^-20.  At the starting point 0.1 every
    component of the gradient is below 6 * 2^-20 < 1e-5, so BFGS takes no
    step and returns the starting point. *)
Definition x_small : DataFrame float :=
  mkFrame rows2 [("a"%string, [0x1p-20; 0x3p-20]); ("b"%string, [0x2p-20; 0x4p-20])].
Definition y_small : Series float := mkSeries rows2 [0; 1].
Definition logit_small : RegressionModel float :=
  mkModel x_small (YSeries y_small) false "logit" None.

Definition small_minim : OptimizeResult float :=
  Eval vm_compute in
    match minimize (log_likelihood x_small y_small) (beta0 x_small)
                   (gradient x_small y_small) with
    | Ok r => r
    | _ => mkOptimizeResult [] false
    end.

Definition small_inv : matrix float :=
  Eval vm_compute in match inv (xtx x_small) with Ok m => m | _ => [] end.

(** Two observations at 8192 and -8192.  At the starting point 0.1 the
    closures compute exp(819.2), which overflows: the likelihood and the
    gradient are NaN there, and BFGS returns the starting point, reporting
    failure. *)
Definition x_overflow : DataFrame float := mkFrame rows2 [("x"%string, [8192; -8192])].
Definition y_overflow : Series float := mkSeries rows2 [1; 0].
Definition logit_overflow : RegressionModel float :=
  mkModel x_overflow (YSeries y_overflow) false "logit" None.

Definition overflow_minim : OptimizeResult float :=
  Eval vm_compute in
    match minimize (log_likelihood x_overflow y_overflow) (beta0 x_overflow)
                   (gradient x_overflow y_overflow) with
    | Ok r => r
    | _ => mkOptimizeResult [] true
    end.

(** The same optimizer with its report overridden. *)
Definition reporting (flag : bool) : Minimizer float := {|
  minimize := fun f x0 jac =>
    (r <- minimize64 f x0 jac ;; Ok (mkOptimizeResult (opt_x r) flag))%py
|}.




(** ** Integers: three observations, two columns, X'X = [[1, 1], [1, 2]] *)

Definition xZ : DataFrame Z :=
  mkFrame rows3 [("a"%string, [1; 0; 0]%Z); ("b"%string, [1; 1; 0]%Z)].
Definition yZ : Series Z := mkSeries rows3 [3; 5; 7]%Z.
Definition olsZ : RegressionModel Z := mkModel xZ (YSeries yZ) false "ols" None.
End Data.

(** * Properties *)

(** ** Dictionaries *)

Section DictFacts.
Context {V : Type}.
Implicit Types (d : dict V) (k : string) (v : V).

Lemma dict_get_set_same d k v : dict_get (dict_set d k v) k = Some v.
Proof.
  induction d as [|[k' v'] d IH]; simpl.
  - now rewrite String.eqb_refl.
  - destruct (String.eqb k' k) eqn:E; simpl; rewrite E; auto.
Qed.

Lemma dict_get_set_other d k k' v :
  k <> k' -> dict_get (dict_set d k v) k' = dict_get d k'.
Proof.
  intros Hne. induction d as [|[k0 v0] d IH]; simpl.
  - destruct (String.eqb_spec k k'); congruence.
  - destruct (String.eqb_spec k0 k) as [->|Hk]; simpl.
    + destruct (String.eqb_spec k k'); congruence.
    + now rewrite IH.
Qed.

Lemma keys_dict_set_fresh d k v :
  ~ In k (keys d) -> keys (dict_set d k v) = keys d ++ [k].
Proof.
  induction d as [|[k0 v0] d IH]; simpl; intros Hn; [reflexivity|].
  destruct (String.eqb_spec k0 k) as [->|Hk]; [tauto|].
  simpl. f_equal. apply IH. tauto.
Qed.

Lemma assign_all_cons f s a names d :
  assign_all f s (a :: names) d = assign_all f (S s) names (dict_set d a (f s)).
Proof. reflexivity. Qed.

Lemma assign_all_keys f names : forall s d,
  NoDup (keys d ++ names) -> keys (assign_all f s names d) = keys d ++ names.
Proof.
  induction names as [|a names IH]; intros s d Hnd.
  - simpl. now rewrite app_nil_r.
  - rewrite assign_all_cons, IH.
    + rewrite keys_dict_set_fresh, <- app_assoc; [reflexivity|].
      apply NoDup_remove_2 in Hnd. intros Hin. apply Hnd, in_or_app. now left.
    + apply NoDup_remove_2 in Hnd as Hfresh.
      rewrite keys_dict_set_fresh, <- app_assoc; [exact Hnd|].
      intros Hin. apply Hfresh, in_or_app. now left.
Qed.

Lemma assign_all_untouched f names k : forall s d,
  ~ In k names -> dict_get (assign_all f s names d) k = dict_get d k.
Proof.
  induction names as [|a names IH]; intros s d Hn; [reflexivity|].
  rewrite assign_all_cons, IH by (simpl in Hn; tauto).
  apply dict_get_set_other. simpl in Hn. tauto.
Qed.

(** The record a name ends with is the one of its last position. *)
Lemma assign_all_get f names k : forall j s d,
  nth_error names j = Some k -> ~ In k (skipn (S j) names) ->
  dict_get (assign_all f s names d) k = Some (f (s + j)).
Proof.
  induction names as [|a names IH]; intros [|j] s d Hj Hlast;
    simpl in Hj; try discriminate.
  - injection Hj as ->. rewrite assign_all_cons, assign_all_untouched by exact Hlast.
    rewrite dict_get_set_same. f_equal. f_equal. lia.
  - rewrite assign_all_cons, (IH j (S s)) by assumption.
    f_equal. f_equal. lia.
Qed.

(** Every record of the final dictionary was there before the loop or was
    stored at one of the positions. *)
Lemma assign_all_inv f names k r : forall s d,
  dict_get (assign_all f s names d) k = Some r ->
  dict_get d k = Some r \/
  exists j, nth_error names j = Some k /\ r = f (s + j).
Proof.
  induction names as [|a names IH]; intros s d Hget; [now left|].
  rewrite assign_all_cons in Hget. apply IH in Hget as [Hget|(j & Hj & ->)].
  - destruct (String.eqb_spec a k) as [->|Hne].
    + rewrite dict_get_set_same in Hget. injection Hget as <-.
      right. exists 0. split; [reflexivity|]. f_equal. lia.
    + rewrite dict_get_set_other in Hget by exact Hne. now left.
  - right. exists (S j). split; [exact Hj|]. f_equal. lia.
Qed.

Lemma assign_all_length f names : forall s d,
  length (assign_all f s names d) <= length d + length names.
Proof.
  induction names as [|a names IH]; intros s d; [unfold assign_all; simpl; lia|].
  rewrite assign_all_cons. etransitivity; [apply IH|].
  assert (length (dict_set d a (f s)) <= S (length d)).
  { clear. induction d as [|[k0 v0] d IHd]; simpl; [lia|].
    destruct (String.eqb k0 a); simpl; lia. }
  simpl. lia.
Qed.
End DictFacts.

(** Boolean comparisons of integers in the hypotheses, as propositions. *)
Ltac zbool :=
  repeat match goal with
    | H : (_ && _)%bool = true |- _ => apply andb_true_iff in H; destruct H
    | H : (_ && _)%bool = false |- _ => apply andb_false_iff in H; destruct H
    | H : (_ <=? _)%Z = true |- _ => apply Z.leb_le in H
    | H : (_ <=? _)%Z = false |- _ => apply Z.leb_gt in H
    | H : (_ <? _)%Z = true |- _ => apply Z.ltb_lt in H
    | H : (_ <? _)%Z = false |- _ => apply Z.ltb_ge in H
    | H : (_ =? _)%Z = true |- _ => apply Z.eqb_eq in H
    | H : (_ =? _)%Z = false |- _ => apply Z.eqb_neq in H
    end.

(** ** Tables: the intercept column *)

Section TableFacts.
Context {F : Type} {SC : Scalar F}.

Lemma loc_range_ones (l : label) : forall m s,
  loc (map (fun i => LInt (Z.of_nat i)) (seq s m)) (repeat one m) l =
  match l with
  | LInt z =>
      if (Z.of_nat s <=? z)%Z && (z <? Z.of_nat (s + m))%Z then Some one else None
  | LStr _ => None
  end.
Proof.
  induction m as [|m IH]; intros s; simpl.
  - destruct l as [z|t]; [|reflexivity].
    destruct (_ && _) eqn:E; [|reflexivity]. zbool. lia.
  - rewrite IH. destruct l as [z|t]; simpl; [|reflexivity].
    destruct (Z.of_nat s =? z)%Z eqn:E0;
      destruct ((Z.of_nat s <=? z)%Z && (z <? Z.of_nat (s + S m))%Z) eqn:E1;
      try (destruct (_ && _) eqn:E2 in |- *); try reflexivity; zbool; lia.
Qed.

Lemma reindex_ones (n : nat) (target : list label) :
  reindex (pd_Series (repeat one n)) target = aligned_ones n target.
Proof.
  unfold reindex, pd_Series, aligned_ones, RangeIndex. simpl.
  rewrite repeat_length. apply map_ext. intros l.
  rewrite loc_range_ones. destruct l as [z|t]; simpl; [|reflexivity].
  now destruct ((0 <=? z)%Z && (z <? Z.of_nat n)%Z).
Qed.

Lemma add_intercept_unfold (x : DataFrame F) :
  add_intercept x =
  mkFrame (df_index x)
    (set_column (df_columns x) "intercept"
       (aligned_ones (length (df_index x)) (df_index x))).
Proof. unfold add_intercept, assign. simpl. now rewrite reindex_ones. Qed.

Lemma existsb_name (cols : list (string * list F)) (name : string) :
  existsb (fun c => String.eqb (fst c) name) cols = true <->
  In name (map fst cols).
Proof.
  rewrite existsb_exists, in_map_iff. split.
  - intros (c & Hin & He). exists c. apply String.eqb_eq in He. auto.
  - intros (c & He & Hin). exists c. split; [exact Hin|]. now apply String.eqb_eq.
Qed.

Lemma set_column_fresh (cols : list (string * list F)) name v :
  ~ In name (map fst cols) -> set_column cols name v = cols ++ [(name, v)].
Proof.
  intros Hn. unfold set_column.
  destruct (existsb _ cols) eqn:E; [|reflexivity].
  apply existsb_name in E. contradiction.
Qed.

Lemma set_column_names (cols : list (string * list F)) name v :
  In name (map fst cols) -> map fst (set_column cols name v) = map fst cols.
Proof.
  intros Hin. unfold set_column.
  apply existsb_name in Hin. rewrite Hin, map_map.
  apply map_ext. intros c. now destruct (String.eqb (fst c) name).
Qed.

Lemma get_column_set (cols : list (string * list F)) name v :
  get_column (set_column cols name v) name = Some v.
Proof.
  unfold get_column, set_column.
  destruct (existsb _ cols) eqn:E.
  - induction cols as [|c cols IH]; simpl in *; [discriminate|].
    destruct (String.eqb (fst c) name) eqn:Ec; simpl.
    + now rewrite Ec.
    + rewrite Ec. apply IH. exact E.
  - induction cols as [|c cols IH]; simpl in *.
    + now rewrite String.eqb_refl.
    + apply orb_false_iff in E as [Ec E]. rewrite Ec. now apply IH.
Qed.

Lemma in_range_iff (n : nat) (l : label) :
  in_range n l = true <-> In l (RangeIndex n).
Proof.
  unfold RangeIndex. rewrite in_map_iff. destruct l as [z|t]; simpl.
  - rewrite andb_true_iff, Z.leb_le, Z.ltb_lt. split.
    + intros [H0 Hn]. exists (Z.to_nat z). split; [f_equal; lia|].
      apply in_seq. lia.
    + intros (i & Hi & Hin). injection Hi as <-. apply in_seq in Hin. lia.
  - split; [discriminate|]. intros (i & Hi & _). discriminate.
Qed.

Lemma aligned_ones_all (n : nat) (ix : list label) :
  Forall (fun l => in_range n l = true) ix ->
  aligned_ones n ix = repeat one (length ix).
Proof.
  induction 1 as [|l ix Hl _ IH]; simpl; [reflexivity|]. now rewrite Hl, IH.
Qed.

Lemma aligned_ones_only (n : nat) (ix : list label) :
  nan <> one ->
  aligned_ones n ix = repeat one (length ix) ->
  Forall (fun l => in_range n l = true) ix.
Proof.
  intros Hnan. induction ix as [|l ix IH]; simpl; intros Heq; constructor.
  - destruct (in_range n l); [reflexivity|]. injection Heq as Hl _. contradiction.
  - apply IH. now injection Heq.
Qed.

Lemma RangeIndex_NoDup (n : nat) : NoDup (RangeIndex n).
Proof.
  unfold RangeIndex. apply Finite.Injective_map_NoDup; [|apply seq_NoDup].
  intros i j Hij. injection Hij. lia.
Qed.

Lemma in_range_Permutation (ix : list label) :
  NoDup ix ->
  (Forall (fun l => in_range (length ix) l = true) ix <->
   Permutation ix (RangeIndex (length ix))).
Proof.
  intros Hnd. split.
  - intros Hall. apply NoDup_Permutation_bis; [exact Hnd| |].
    + unfold RangeIndex. rewrite length_map, length_seq. lia.
    + intros l Hl. apply in_range_iff. rewrite Forall_forall in Hall. auto.
  - intros Hp. apply Forall_forall. intros l Hl. apply in_range_iff.
    eapply Permutation_in; eassumption.
Qed.
End TableFacts.

(** ** The estimators, step by step *)

Section ClassFacts.
Context {F : Type} {SC : Scalar F} {TR : Transcendental F} {LA : Linalg F}
        {ST : Stats F} {MI : Minimizer F}.
Local Open Scope num_scope.
Implicit Types (self : RegressionModel F) (x : DataFrame F) (ys : Series F).

Lemma ols_regression_series self ys :
  self_y self = YSeries ys ->
  ols_regression self =
  (z <- solve (xtx (self_x self)) (eye (snd (shape (self_x self)))) ;;
   yv <- align (df_index (self_x self)) ys ;;
   z' <- solve (xtx (self_x self)) (eye (snd (shape (self_x self)))) ;;
   Ok (set_results self (ols_results (self_x self) z yv z')))%py.
Proof. intros Hy. unfold ols_regression. rewrite Hy. reflexivity. Qed.

Lemma logistic_regression_series self ys :
  self_y self = YSeries ys ->
  logistic_regression self =
  (minim <- minimize (log_likelihood (self_x self) ys) (beta0 (self_x self))
                     (gradient (self_x self) ys) ;;
   xi <- inv (xtx (self_x self)) ;;
   Ok (set_results self (logit_results (self_x self) (opt_x minim) xi),
       logit_prints (self_x self) (opt_x minim) xi))%py.
Proof. intros Hy. unfold logistic_regression. rewrite Hy. reflexivity. Qed.

Lemma ols_regression_stale self (stale : dict (dict F)) :
  ols_regression (set_results self stale) = ols_regression self.
Proof.
  unfold ols_regression. simpl. destruct (self_y self); reflexivity.
Qed.

Lemma ols_regression_sets self self' :
  ols_regression self = Ok self' ->
  exists r, self' = set_results self r.
Proof.
  unfold ols_regression. simpl. destruct (self_y self); [|discriminate].
  destruct (solve _ _) as [z| |]; simpl; try discriminate.
  destruct (align _ _) as [yv| |]; simpl; try discriminate.
  intros H. injection H as <-. eauto.
Qed.

Lemma fit_model_ols self :
  self_regression_type self = "ols"%string ->
  fit_model self = (self' <- ols_regression self ;; Ok (self', []))%py.
Proof. intros Ht. unfold fit_model. now rewrite Ht. Qed.

Lemma fit_model_logit self :
  self_regression_type self = "logit"%string ->
  fit_model self = logistic_regression self.
Proof. intros Ht. unfold fit_model. now rewrite Ht. Qed.

(** A fit that returns was given a Series for [y]. *)
Lemma fit_model_returns_series self self' out :
  fit_model self = Ok (self', out) -> exists ys, self_y self = YSeries ys.
Proof.
  unfold fit_model, ols_regression, logistic_regression. simpl.
  destruct (self_y self) as [ys|yd]; [eauto|].
  destruct (String.eqb _ "ols"); [discriminate|].
  destruct (String.eqb _ "logit"); discriminate.
Qed.

(** [store_results] is the assignment loop from an empty dictionary. *)
Lemma store_results_assign_all key names (beta se stat pv : list F) :
  store_results key names beta se stat pv =
  assign_all (fun i => [("coefficient"%string, nth i beta nan);
                        ("standard_error"%string, nth i se nan);
                        (key, nth i stat nan);
                        ("p_value"%string, nth i pv nan)]) 0 names [].
Proof. reflexivity. Qed.

Lemma store_results_keys key names (beta se stat pv : list F) :
  NoDup names -> keys (store_results key names beta se stat pv) = names.
Proof.
  intros Hnd. rewrite store_results_assign_all, assign_all_keys; auto.
Qed.

Lemma last_position (names : list string) (name : string) :
  In name names ->
  exists j, nth_error names j = Some name /\ ~ In name (skipn (S j) names).
Proof.
  induction names as [|a names IH]; intros Hin; [contradiction|].
  destruct (in_dec string_dec name names) as [Hlater|Hnot].
  - destruct (IH Hlater) as (j & Hj & Hlast). exists (S j). auto.
  - destruct Hin as [->|Hin]; [|contradiction]. exists 0. auto.
Qed.
End ClassFacts.

(** ** Construction and the design matrix *)

Section Construction.
Context {F : Type} {SC : Scalar F} {TR : Transcendental F} {LA : Linalg F}
        {ST : Stats F} {MI : Minimizer F}.
Implicit Types (self : RegressionModel F) (x : DataFrame F) (ys : Series F).

(** C5, as the constructor has it: a table [x] and a vector [y] whose row
    counts differ are accepted.  The constructor compares no lengths; with
    a boolean flag and the type "ols" or "logit" it returns the instance,
    holding [x] (with the intercept column when the flag is set) and [y]
    as given. *)
Theorem init_accepts_differing_row_counts x ys (flag : bool) (rt : string) :
  length (df_index x) <> length (s_index ys) ->
  rt = "ols"%string \/ rt = "logit"%string ->
  __init__ (PyFrame x) (PySeries ys) (PyBool flag) (PyStr rt) =
  Ok (mkModel (if flag then add_intercept x else x) (YSeries ys) flag rt None).
Proof.
  intros _ [-> | ->]; reflexivity.
Qed.

(** The constructor raises nothing but its four [RuntimeError]s. *)
Lemma init_raises_runtime_error (a b c d : pyval F) (e : exn) :
  __init__ a b c d = Raise e -> exists msg, e = RuntimeError msg.
Proof.
  unfold __init__.
  destruct a; simpl; try (intros H; injection H as <-; eauto; fail).
  destruct b; simpl; try (intros H; injection H as <-; eauto; fail);
    destruct c; simpl; try (intros H; injection H as <-; eauto; fail);
    destruct d as [| |?|rt| |]; simpl; try (intros H; injection H as <-; eauto; fail);
    destruct (String.eqb rt "ols"); simpl; try discriminate;
    destruct (String.eqb rt "logit"); simpl; try discriminate;
    intros H; injection H as <-; eauto.
Qed.

(** With unequal row counts it is the first product of the OLS fit,
    [x.T.dot(y)], that raises. *)
Lemma align_length_mismatch (ix : list label) ys :
  length ix <> length (s_index ys) ->
  align ix ys = Raise (ValueError "matrices are not aligned").
Proof.
  intros Hlen. unfold align.
  destruct (index_eqb ix (s_index ys)) eqn:E.
  - exfalso. apply Hlen. clear Hlen. revert E. generalize (s_index ys).
    induction ix as [|a ix IH]; intros [|b iy]; simpl; try discriminate; auto.
    intros H. apply andb_true_iff in H as [_ H]. f_equal. auto.
  - apply Nat.eqb_neq in Hlen. unfold same_labels. rewrite Hlen.
    now rewrite andb_false_r.
Qed.

(** A fit raises what one of its library calls, or the alignment of [y]
    with [x], raised: the class itself looks at no value of the table. *)
Lemma fit_model_raises self ys (e : exn) :
  self_y self = YSeries ys ->
  self_regression_type self = "ols"%string
  \/ self_regression_type self = "logit"%string ->
  fit_model self = Raise e ->
  solve (xtx (self_x self)) (eye (snd (shape (self_x self)))) = Raise e
  \/ align (df_index (self_x self)) ys = Raise e
  \/ minimize (log_likelihood (self_x self) ys) (beta0 (self_x self))
              (gradient (self_x self) ys) = Raise e
  \/ inv (xtx (self_x self)) = Raise e.
Proof.
  intros Hy [Ht|Ht].
  - rewrite (fit_model_ols _ Ht), (ols_regression_series _ Hy).
    destruct (solve _ _) as [z| |]; simpl; try discriminate.
    + destruct (align _ _) as [yv| |]; simpl; try discriminate.
      intros H. injection H as ->. auto.
    + intros H. injection H as ->. auto.
  - rewrite (fit_model_logit _ Ht), (logistic_regression_series _ Hy).
    destruct (minimize _ _ _) as [minim| |]; simpl; try discriminate.
    + destruct (inv _) as [xi| |]; simpl; try discriminate.
      intros H. injection H as ->. auto.
    + intros H. injection H as ->. auto.
Qed.

(** C10, as the code has it: the intercept column follows the row labels
    of [x].  The column [add_intercept] stores holds 1 at the rows whose
    label is one of 0..n-1 and NaN at every other row; so it is all ones
    exactly when every label lies in 0..n-1, in whatever order and however
    often repeated (for labels without repetition: when the index is a
    rearrangement of 0..n-1).  Nothing is raised on account of
    the NaN entries: the constructor returns the instance with that table,
    which is the design matrix the fit reads, and the fit raises only what
    the alignment of [y] or a library call raises. *)
Theorem intercept_follows_row_labels x :
  let n := length (df_index x) in
  let column := map (fun l => if in_range n l then one else nan) (df_index x) in
  get_column (df_columns (add_intercept x)) "intercept" = Some column
  /\ (forall i l, nth_error (df_index x) i = Some l -> in_range n l = false ->
      nth_error column i = Some nan)
  /\ (nan <> one ->
      (column = repeat one n <-> Forall (fun l => in_range n l = true) (df_index x)))
  /\ (NoDup (df_index x) ->
      (Forall (fun l => in_range n l = true) (df_index x) <->
       Permutation (df_index x) (RangeIndex n)))
  /\ (forall ys rt, rt = "ols"%string \/ rt = "logit"%string ->
      __init__ (PyFrame x) (PySeries ys) (PyBool true) (PyStr rt) =
      Ok (mkModel (add_intercept x) (YSeries ys) true rt None))
  /\ (forall ys rt e, rt = "ols"%string \/ rt = "logit"%string ->
      fit_model (mkModel (add_intercept x) (YSeries ys) true rt None) = Raise e ->
      solve (xtx (add_intercept x)) (eye (snd (shape (add_intercept x)))) = Raise e
      \/ align (df_index (add_intercept x)) ys = Raise e
      \/ minimize (log_likelihood (add_intercept x) ys) (beta0 (add_intercept x))
                  (gradient (add_intercept x) ys) = Raise e
      \/ inv (xtx (add_intercept x)) = Raise e).
Proof.
  cbv zeta. repeat split.
  - rewrite add_intercept_unfold. simpl. apply get_column_set.
  - intros i l Hi Hl. rewrite nth_error_map, Hi. simpl. now rewrite Hl.
  - apply aligned_ones_only; assumption.
  - intros Hall. now apply aligned_ones_all.
  - now apply in_range_Permutation.
  - now apply in_range_Permutation.
  - intros ys rt [-> | ->]; reflexivity.
  - intros ys rt e Hrt Hfit.
    apply (fit_model_raises
             (mkModel (add_intercept x) (YSeries ys) true rt None) (ys := ys));
      [reflexivity|exact Hrt|exact Hfit].
Qed.

(** The keys of a fitted model are the column names, when no name is
    repeated. *)
Lemma fit_model_keys self self' out :
  fit_model self = Ok (self', out) ->
  NoDup (columns (self_x self)) ->
  exists r, self_results self' = Some r /\ keys r = columns (self_x self)
            /\ length r = snd (shape (self_x self)).
Proof.
  intros Hfit Hnd.
  destruct (fit_model_returns_series _ Hfit) as [ys Hy].
  unfold fit_model in Hfit.
  destruct (String.eqb _ "ols").
  - rewrite (ols_regression_series _ Hy) in Hfit.
    destruct (solve _ _) as [z| |]; simpl in Hfit; try discriminate.
    destruct (align _ _) as [yv| |]; simpl in Hfit; try discriminate.
    injection Hfit as <- <-. eexists. split; [reflexivity|].
    unfold ols_results.
    assert (Hk := store_results_keys "t_stat" (ols_beta (self_x self) z yv)
                    (ols_serror (self_x self) z yv z)
                    (ols_tstat (self_x self) z yv z)
                    (ols_pval (self_x self) z yv z) Hnd).
    split; [exact Hk|].
    apply (f_equal (@length _)) in Hk. unfold keys, columns in Hk.
    rewrite !length_map in Hk. exact Hk.
  - destruct (String.eqb _ "logit"); [|discriminate].
    rewrite (logistic_regression_series _ Hy) in Hfit.
    destruct (minimize _ _ _) as [minim| |]; simpl in Hfit; try discriminate.
    destruct (inv _) as [xi| |]; simpl in Hfit; try discriminate.
    injection Hfit as <- <-. eexists. split; [reflexivity|].
    unfold logit_results.
    assert (Hk := store_results_keys "z_stat" (opt_x minim)
                    (logit_se (self_x self) (opt_x minim) xi)
                    (logit_zstat (self_x self) (opt_x minim) xi)
                    (logit_pvals (self_x self) (opt_x minim) xi) Hnd).
    split; [exact Hk|].
    apply (f_equal (@length _)) in Hk. unfold keys, columns in Hk.
    rewrite !length_map in Hk. exact Hk.
Qed.

(** A table that has a column "intercept" keeps its column names: the
    column is overwritten, none is appended. *)
Lemma add_intercept_existing_column x :
  In "intercept"%string (columns x) -> columns (add_intercept x) = columns x.
Proof.
  intros Hin. rewrite add_intercept_unfold. unfold columns. simpl.
  now apply set_column_names.
Qed.

(** Whatever the column names, a fit stores at most one record per column. *)
Lemma store_results_at_most_k key names (beta se stat pv : list F) :
  length (store_results key names beta se stat pv) <= length names.
Proof.
  rewrite store_results_assign_all.
  etransitivity; [apply assign_all_length|]. simpl. lia.
Qed.

(** C8, with the conditions the code needs: when the flag is set, [x] has
    no column named "intercept" and every row label of [x] is one of
    0..n-1, the design matrix is the columns of [x] in their order followed
    by a column "intercept" of ones; and when moreover no column name is
    repeated, a fit of either family that returns has stored exactly one
    record per column of the design matrix, keyed by the column names in
    column order. *)
Theorem design_matrix_and_result_keys x (y rt : pyval F) self :
  __init__ (PyFrame x) y (PyBool true) rt = Ok self ->
  ~ In "intercept"%string (columns x) ->
  Forall (fun l => in_range (length (df_index x)) l = true) (df_index x) ->
  self_x self =
    mkFrame (df_index x)
            (df_columns x ++ [("intercept"%string, repeat one (length (df_index x)))])
  /\ (NoDup (columns x) ->
      forall self' out, fit_model self = Ok (self', out) ->
      exists r, self_results self' = Some r
                /\ keys r = columns x ++ ["intercept"%string]
                /\ length r = snd (shape (self_x self))).
Proof.
  intros Hinit Hfresh Hrange.
  assert (Hx : self_x self = add_intercept x).
  { unfold __init__ in Hinit. simpl in Hinit.
    destruct y; simpl in Hinit; try discriminate;
      destruct rt as [| |?|name| |]; simpl in Hinit; try discriminate;
      destruct (String.eqb name "ols"); simpl in Hinit;
      try (injection Hinit as <-; reflexivity);
      destruct (String.eqb name "logit"); simpl in Hinit; try discriminate;
      injection Hinit as <-; reflexivity. }
  assert (Hadd : add_intercept x =
                 mkFrame (df_index x)
                   (df_columns x ++
                    [("intercept"%string, repeat one (length (df_index x)))])).
  { rewrite add_intercept_unfold, set_column_fresh by exact Hfresh.
    now rewrite aligned_ones_all. }
  split; [now rewrite Hx|].
  intros Hnd self' out Hfit.
  assert (Hcols : columns (self_x self) = columns x ++ ["intercept"%string]).
  { rewrite Hx, Hadd. unfold columns. simpl. now rewrite map_app. }
  destruct (fit_model_keys _ Hfit) as (r & Hr & Hk & Hlen).
  - rewrite Hcols. apply NoDup_app; [exact Hnd|repeat constructor; simpl; tauto|].
    intros name Hin [<-|[]]. contradiction.
  - exists r. rewrite <- Hcols. auto.
Qed.
End Construction.

(** ** Lists and arrays *)

Section ArrayFacts.
Context {F : Type} {SC : Scalar F}.
Local Open Scope num_scope.

Lemma nth_map_in {A B : Type} (f : A -> B) (l : list A) (j : nat) (d : A) (d' : B) :
  j < length l -> nth j (map f l) d' = f (nth j l d).
Proof.
  intros Hj. rewrite (nth_indep _ d' (f d)) by now rewrite length_map.
  apply map_nth.
Qed.

Lemma enumerate_length {A : Type} (l : list A) : length (enumerate l) = length l.
Proof. unfold enumerate. rewrite length_combine, length_seq. lia. Qed.

Lemma matvec_length (m : matrix F) (v : list F) : length (matvec m v) = length m.
Proof. apply length_map. Qed.

Lemma diag_length (m : matrix F) : length (diag m) = length m.
Proof. unfold diag. now rewrite length_map, length_seq. Qed.

Lemma nth_diag (m : matrix F) (j : nat) :
  j < length m -> nth j (diag m) nan = nth j (nth j m []) nan.
Proof.
  intros Hj. unfold diag.
  rewrite (nth_map_in _ _ 0) by now rewrite length_seq.
  now rewrite seq_nth.
Qed.

Lemma nth_vdiv (u v : list F) (j : nat) :
  j < length u -> length u = length v ->
  nth j (vdiv u v) nan = nth j u nan / nth j v nan.
Proof.
  intros Hj Hlen. unfold vdiv.
  rewrite (nth_map_in _ _ (nan, nan)) by (rewrite length_combine; lia).
  now rewrite combine_nth.
Qed.

Lemma vmul_map_self (f : F -> F) (p : list F) :
  vmul p (map f p) = map (fun v => v * f v) p.
Proof.
  unfold vmul. induction p as [|a p IH]; simpl; [reflexivity|]. now rewrite IH.
Qed.

(** An entry of [s * m] and of [np.sqrt(m)] on a k x k array. *)
Lemma nth_scale (s : F) (m : matrix F) (k j : nat) :
  Forall (fun row => length row = k) m -> j < length m -> j < k ->
  nth j (nth j (scale s m) []) nan = s * nth j (nth j m []) nan.
Proof.
  intros Hrows Hj Hk. unfold scale.
  rewrite (nth_map_in _ _ []) by exact Hj.
  apply nth_map_in.
  rewrite Forall_forall in Hrows. rewrite (Hrows (nth j m [])); [exact Hk|].
  now apply nth_In.
Qed.

Lemma nth_msqrt (m : matrix F) (k j : nat) :
  Forall (fun row => length row = k) m -> j < length m -> j < k ->
  nth j (nth j (msqrt m) []) nan = fsqrt (nth j (nth j m []) nan).
Proof.
  intros Hrows Hj Hk. unfold msqrt.
  rewrite (nth_map_in _ _ []) by exact Hj.
  apply nth_map_in.
  rewrite Forall_forall in Hrows. rewrite (Hrows (nth j m [])); [exact Hk|].
  now apply nth_In.
Qed.

Lemma scale_rows (s : F) (m : matrix F) (k : nat) :
  Forall (fun row => length row = k) m ->
  Forall (fun row => length row = k) (scale s m).
Proof.
  intros H. unfold scale. apply Forall_map.
  eapply Forall_impl; [|exact H]. intros row Hrow. simpl. now rewrite length_map.
Qed.

Lemma scale_length (s : F) (m : matrix F) : length (scale s m) = length m.
Proof. apply length_map. Qed.

Lemma msqrt_length (m : matrix F) : length (msqrt m) = length m.
Proof. apply length_map. Qed.

Lemma columns_length (x : DataFrame F) : length (columns x) = snd (shape x).
Proof. apply length_map. Qed.
End ArrayFacts.

(** ** Ordinary least squares *)

Section OLS.
Context {F : Type} {SC : Scalar F} {TR : Transcendental F} {LA : Linalg F}
        {ST : Stats F} {MI : Minimizer F}.
Local Open Scope num_scope.
Implicit Types (self : RegressionModel F) (x : DataFrame F) (ys : Series F).

(** C3, as the estimator has it: a fit with n <= k is not rejected.
    [ols_regression] compares n and k nowhere; it raises only what
    [np.linalg.solve] or the alignment of [y] with [x] raise, and when
    both return it stores the results, computed with the residual variance
    [eps.T.dot(eps) / (n - k)] of [ols_shat], a division by n - k <= 0. *)
Theorem ols_fit_has_no_degeneracy_check self ys :
  self_y self = YSeries ys ->
  fst (shape (self_x self)) <= snd (shape (self_x self)) ->
  (forall e, ols_regression self = Raise e ->
     solve (xtx (self_x self)) (eye (snd (shape (self_x self)))) = Raise e
     \/ align (df_index (self_x self)) ys = Raise e)
  /\ (forall z yv,
     solve (xtx (self_x self)) (eye (snd (shape (self_x self)))) = Ok z ->
     align (df_index (self_x self)) ys = Ok yv ->
     ols_regression self =
       Ok (set_results self (ols_results (self_x self) z yv z))
     /\ ols_shat (self_x self) z yv =
        (let eps := vsub yv (x_dot (self_x self) (ols_beta (self_x self) z yv)) in
         dot eps eps
         / of_int (Z.of_nat (fst (shape (self_x self)))
                   - Z.of_nat (snd (shape (self_x self)))))).
Proof.
  intros Hy _. rewrite (ols_regression_series _ Hy). split.
  - intros e. destruct (solve _ _) as [z| |]; simpl; try discriminate.
    + destruct (align _ _) as [yv| |]; simpl; try discriminate.
      intros H. injection H as ->. now right.
    + intros H. injection H as ->. now left.
  - intros z yv -> ->. simpl. split; reflexivity.
Qed.

Lemma ols_tstat_length x (z : matrix F) yv z' :
  length (ols_tstat x z yv z') = length z.
Proof.
  unfold ols_tstat, ols_beta. now rewrite length_map, enumerate_length, matvec_length.
Qed.

(** C7: the p-value stored for a coefficient is [stats.t.sf] of its
    t-statistic with n - k degrees of freedom, the upper tail on one side.
    When the solver returns its k rows and [y] aligns with [x], the fit
    returns, every column has a record, and every record holds
    p_value = t.sf(t_stat, n - k). *)
Theorem ols_p_value_is_upper_tail self ys (z : matrix F) (yv : list F) :
  self_y self = YSeries ys ->
  solve (xtx (self_x self)) (eye (snd (shape (self_x self)))) = Ok z ->
  length z = snd (shape (self_x self)) ->
  align (df_index (self_x self)) ys = Ok yv ->
  exists r,
    ols_regression self = Ok (set_results self r)
    /\ (forall name, In name (columns (self_x self)) ->
        exists rec, dict_get r name = Some rec)
    /\ (forall name rec, dict_get r name = Some rec ->
        exists t, dict_get rec "t_stat" = Some t
                  /\ dict_get rec "p_value" =
                     Some (t_sf t (Z.of_nat (fst (shape (self_x self)))
                                   - Z.of_nat (snd (shape (self_x self)))))).
Proof.
  intros Hy Hz Hlen Hal. rewrite (ols_regression_series _ Hy), Hz, Hal. simpl.
  eexists. split; [reflexivity|]. unfold ols_results.
  rewrite store_results_assign_all. split.
  - intros name Hin. destruct (last_position _ _ Hin) as (j & Hj & Hlast).
    eexists. apply (assign_all_get _ _ _ 0 [] Hj Hlast).
  - intros name rec Hget.
    apply assign_all_inv in Hget as [Hget|(j & Hj & ->)]; [discriminate|].
    eexists. split; [reflexivity|]. simpl. f_equal.
    unfold ols_pval.
    rewrite (nth_map_in (fun t => t_sf t (dof (self_x self))) _ nan nan);
      [reflexivity|].
    rewrite ols_tstat_length, Hlen, <- columns_length.
    apply nth_error_Some. congruence.
Qed.

(** C9: fitting an OLS model twice gives the same results.  The second
    fit returns what the first returned, and a fit does not look at the
    results an earlier fit left: it stores a new dictionary in their
    place. *)
Theorem ols_refit_is_identical self self1 out1 :
  self_regression_type self = "ols"%string ->
  fit_model self = Ok (self1, out1) ->
  fit_model self1 = Ok (self1, out1)
  /\ (forall stale, fit_model (set_results self stale) = Ok (self1, out1))
  /\ (exists r, self_results self1 = Some r /\ self1 = set_results self r).
Proof.
  intros Ht Hfit.
  assert (Hstale : forall stale, fit_model (set_results self stale) = Ok (self1, out1)).
  { intros stale. rewrite fit_model_ols by exact Ht.
    rewrite ols_regression_stale, <- fit_model_ols by exact Ht. exact Hfit. }
  rewrite fit_model_ols in Hfit by exact Ht.
  destruct (ols_regression self) as [s1| |] eqn:Hols; simpl in Hfit; try discriminate.
  injection Hfit as -> <-.
  destruct (ols_regression_sets _ Hols) as [r ->].
  split; [apply Hstale|]. split; [exact Hstale|]. exists r. auto.
Qed.
End OLS.

(** ** Logistic regression *)

Section Logit.
Context {F : Type} {SC : Scalar F} {TR : Transcendental F} {LA : Linalg F}
        {ST : Stats F}.
Local Open Scope num_scope.
Implicit Types (self : RegressionModel F) (x : DataFrame F) (ys : Series F).

Lemma logistic_function_rows x (beta : list F) :
  logistic_function x beta = fitted_probabilities x beta.
Proof.
  unfold logistic_function, fitted_probabilities, x_dot, matvec.
  now rewrite map_map.
Qed.

Lemma logit_sigmahat2_mean x (beta : list F) :
  logit_sigmahat2 x beta =
  of_int (Z.of_nat (fst (shape x)))
  * mean (map (fun p => p * (one - p)) (fitted_probabilities x beta)).
Proof.
  unfold logit_sigmahat2. now rewrite logistic_function_rows, vmul_map_self.
Qed.

Lemma logit_se_length x (beta : list F) (xi : matrix F) :
  length (logit_se x beta xi) = length xi.
Proof.
  unfold logit_se, logit_covmatrix.
  now rewrite diag_length, msqrt_length, scale_length.
Qed.

Lemma nth_logit_se x (beta : list F) (xi : matrix F) (k j : nat) :
  length xi = k -> Forall (fun row => length row = k) xi -> j < k ->
  nth j (logit_se x beta xi) nan =
  fsqrt (logit_sigmahat2 x beta * nth j (nth j xi []) nan).
Proof.
  intros Hlen Hrows Hj. unfold logit_se, logit_covmatrix.
  rewrite nth_diag by (rewrite msqrt_length, scale_length; lia).
  rewrite (@nth_msqrt _ _ _ k)
    by (try apply scale_rows; try rewrite scale_length; auto; lia).
  now rewrite (@nth_scale _ _ _ _ k) by (auto; lia).
Qed.

(** What the loop stores for the column at position [j], when the
    optimizer and the inverse return arrays of the shapes of their
    arguments. *)
Lemma logit_record {MI : Minimizer F} x (beta : list F) (xi : matrix F) (j : nat) name :
  length beta = snd (shape x) -> length xi = snd (shape x) ->
  Forall (fun row => length row = snd (shape x)) xi ->
  nth_error (columns x) j = Some name ->
  ~ In name (skipn (S j) (columns x)) ->
  let se_j := fsqrt (logit_sigmahat2 x beta * nth j (nth j xi []) nan) in
  let z_j := nth j beta nan / se_j in
  dict_get (logit_results x beta xi) name =
  Some [("coefficient"%string, nth j beta nan);
        ("standard_error"%string, se_j);
        ("z_stat"%string, z_j);
        ("p_value"%string, of_int 2 * norm_sf (fabs z_j))].
Proof.
  intros Hb Hxi Hrows Hj Hlast. cbv zeta.
  assert (Hjk : j < snd (shape x)).
  { rewrite <- columns_length. apply nth_error_Some. congruence. }
  unfold logit_results. rewrite store_results_assign_all.
  rewrite (assign_all_get _ _ _ 0 [] Hj Hlast). simpl.
  assert (Hse := nth_logit_se x beta Hxi Hrows Hjk).
  assert (Hz : nth j (logit_zstat x beta xi) nan =
               nth j beta nan / nth j (logit_se x beta xi) nan).
  { unfold logit_zstat. apply nth_vdiv; [lia|]. now rewrite logit_se_length, Hb, Hxi. }
  assert (Hp : nth j (logit_pvals x beta xi) nan =
               of_int 2 * norm_sf (fabs (nth j (logit_zstat x beta xi) nan))).
  { unfold logit_pvals.
    rewrite (nth_map_in (fun z => of_int 2 * norm_sf (fabs z)) _ nan nan);
      [reflexivity|].
    unfold logit_zstat, vdiv. rewrite length_map, length_combine, logit_se_length. lia. }
  now rewrite Hp, Hz, Hse.
Qed.

(** C2: the inference after the optimizer has returned beta.  With
    p_i = sigma(x_i . beta), s2 = n * mean(p (1 - p)) and the covariance
    matrix s2 * inv(X'X), the standard errors are the diagonal of the
    element-wise square root of that matrix, and the record of the
    coefficient at position j holds beta_j, se_j,
    z_stat = beta_j / se_j and p_value = 2 * norm.sf(|z_stat|). *)
Theorem logit_inference {MI : Minimizer F} self ys
        (minim : OptimizeResult F) (xi : matrix F) :
  self_y self = YSeries ys ->
  minimize (log_likelihood (self_x self) ys) (beta0 (self_x self))
           (gradient (self_x self) ys) = Ok minim ->
  inv (xtx (self_x self)) = Ok xi ->
  length (opt_x minim) = snd (shape (self_x self)) ->
  length xi = snd (shape (self_x self)) ->
  Forall (fun row => length row = snd (shape (self_x self))) xi ->
  let beta := opt_x minim in
  let p := fitted_probabilities (self_x self) beta in
  let s2 := of_int (Z.of_nat (fst (shape (self_x self))))
            * mean (map (fun p_i => p_i * (one - p_i)) p) in
  let covmatrix := scale s2 xi in
  let se := diag (msqrt covmatrix) in
  exists r out,
    logistic_regression self = Ok (set_results self r, out)
    /\ forall j name,
         nth_error (columns (self_x self)) j = Some name ->
         ~ In name (skipn (S j) (columns (self_x self))) ->
         nth j se nan = fsqrt (nth j (nth j covmatrix []) nan)
         /\ dict_get r name =
            Some [("coefficient"%string, nth j beta nan);
                  ("standard_error"%string, nth j se nan);
                  ("z_stat"%string, nth j beta nan / nth j se nan);
                  ("p_value"%string,
                   of_int 2 * norm_sf (fabs (nth j beta nan / nth j se nan)))].
Proof.
  intros Hy Hmin Hinv Hb Hxi Hrows. cbv zeta.
  rewrite (logistic_regression_series _ Hy), Hmin, Hinv. unfold bind.
  do 2 eexists. split; [reflexivity|].
  intros j name Hj Hlast.
  assert (Hjk : j < snd (shape (self_x self))).
  { rewrite <- columns_length. apply nth_error_Some. congruence. }
  rewrite <- logit_sigmahat2_mean.
  assert (Hse : nth j (diag (msqrt (scale (logit_sigmahat2 (self_x self) (opt_x minim)) xi))) nan
                = fsqrt (logit_sigmahat2 (self_x self) (opt_x minim)
                         * nth j (nth j xi []) nan)).
  { apply (nth_logit_se (self_x self) (opt_x minim) Hxi Hrows Hjk). }
  split.
  - rewrite Hse. now rewrite (@nth_scale _ _ _ _ (snd (shape (self_x self)))) by (auto; lia).
  - rewrite Hse. apply (logit_record _ _ _ Hb Hxi Hrows Hj Hlast).
Qed.


(** C4, as the estimator has it: the fit does not read the optimizer's
    report of convergence.  Two optimizers that return the same point give
    the same fit whatever they report; once [minimize] has returned, the
    fit goes on with the point it returned as beta, and can only fail in
    [np.linalg.inv].  No bound on the gradient at beta is checked. *)
Theorem logit_fit_ignores_convergence_report (MI1 MI2 : Minimizer F) self ys
        (r1 r2 : OptimizeResult F) :
  self_y self = YSeries ys ->
  @minimize F MI1 (log_likelihood (self_x self) ys) (beta0 (self_x self))
            (gradient (self_x self) ys) = Ok r1 ->
  @minimize F MI2 (log_likelihood (self_x self) ys) (beta0 (self_x self))
            (gradient (self_x self) ys) = Ok r2 ->
  opt_x r1 = opt_x r2 ->
  @logistic_regression F SC TR LA ST MI1 self = @logistic_regression F SC TR LA ST MI2 self
  /\ (forall xi, inv (xtx (self_x self)) = Ok xi ->
      @logistic_regression F SC TR LA ST MI1 self =
      Ok (set_results self (logit_results (self_x self) (opt_x r1) xi),
          logit_prints (self_x self) (opt_x r1) xi))
  /\ (forall e, @logistic_regression F SC TR LA ST MI1 self = Raise e ->
      inv (xtx (self_x self)) = Raise e).
Proof.
  intros Hy H1 H2 Hx.
  rewrite (@logistic_regression_series F SC TR LA ST MI1 _ _ Hy), H1.
  rewrite (@logistic_regression_series F SC TR LA ST MI2 _ _ Hy), H2.
  simpl. rewrite Hx. repeat split.
  - intros xi ->. reflexivity.
  - intros e. destruct (inv _) as [xi| |]; simpl; try discriminate.
    intros H. now injection H as ->.
Qed.
End Logit.

(** ** The normal equations, in exact arithmetic *)

Section NormalEquations.
Context {F : Type} {SC : Scalar F} {LA : Linalg F} {ST : Stats F}.
Local Open Scope num_scope.
Implicit Types (self : RegressionModel F) (x : DataFrame F) (ys : Series F).
Implicit Types (u v b r : list F) (m : matrix F).

(** numpy's operations as a commutative ring: arithmetic without rounding. *)
Hypothesis Fring : ring_theory (zero : F) one fadd fmul fsub fneg eq.
Add Ring Fring : Fring.
















End NormalEquations.

(** * The class on concrete tables *)

Module Examples.
Import Float64 Data.
Local Open Scope float_scope.

(** ** Construction on these tables *)

(** C5 fails on the code: with two rows in [x] and three in [y] the
    constructor returns the instance. *)
Lemma init_returns_on_two_rows_against_three :
  length (df_index x_two_rows) = 2%nat
  /\ length (s_index y_three_rows) = 3%nat
  /\ __init__ (PyFrame x_two_rows) (PySeries y_three_rows) (PyBool true) (PyStr "ols")
     = Ok (mkModel (mkFrame rows2 [("x"%string, [1; 2]); ("intercept"%string, [1; 1])])
                   (YSeries y_three_rows) true "ols" None).
Proof. repeat split. Qed.

Lemma init_accepts_differing_row_counts_witness :
  __init__ (PyFrame x_two_rows) (PySeries y_three_rows) (PyBool true) (PyStr "ols")
  = Ok (mkModel (add_intercept x_two_rows) (YSeries y_three_rows) true "ols" None).
Proof.
  apply (init_accepts_differing_row_counts x_two_rows y_three_rows true (rt := "ols")).
  - simpl. lia.
  - left. reflexivity.
Defined.

(** The OLS fit of that instance is where the mismatch shows. *)
Example fit_raises_on_two_rows_against_three :
  fit_model (mkModel (add_intercept x_two_rows) (YSeries y_three_rows) true "ols" None)
  = Raise (ValueError "matrices are not aligned").
Proof. vm_compute. reflexivity. Qed.

(** C8 fails on the code in three ways: on rows labelled 1, 2 the
    intercept column is [1, NaN]; a column "intercept" of [x] is overwritten
    where it stands and nothing is appended; and of two columns of one name
    a single record remains, so the three columns of the design matrix end
    with two records. *)
Lemma intercept_column_and_keys_can_differ :
  get_column (df_columns (add_intercept x_sliced)) "intercept" = Some [1; nan]
  /\ add_intercept x_with_intercept
     = mkFrame rows2 [("intercept"%string, [1; 1]); ("x"%string, [1; 2])]
  /\ exists self self' out r,
       __init__ (PyFrame x_repeated_name) (PySeries y3) (PyBool true) (PyStr "ols")
       = Ok self
       /\ snd (shape (self_x self)) = 3%nat
       /\ fit_model self = Ok (self', out)
       /\ self_results self' = Some r
       /\ keys r = ["a"; "intercept"]%string.
Proof.
  split; [vm_compute; reflexivity|]. split; [vm_compute; reflexivity|].
  do 4 eexists. split; [reflexivity|]. split; [reflexivity|].
  split; [vm_compute; reflexivity|]. split; reflexivity.
Qed.

Lemma design_matrix_and_result_keys_witness :
  self_x ols3
  = mkFrame (df_index x3)
            (df_columns x3 ++ [("intercept"%string, repeat one (length (df_index x3)))])
  /\ (NoDup (columns x3) ->
      forall self' out, fit_model ols3 = Ok (self', out) ->
      exists r, self_results self' = Some r
                /\ keys r = columns x3 ++ ["intercept"%string]
                /\ length r = snd (shape (self_x ols3))).
Proof.
  apply (design_matrix_and_result_keys x3 (PySeries y3) (PyStr "ols")).
  - reflexivity.
  - simpl. intros [H|[]]. discriminate H.
  - repeat constructor.
Defined.

Example nan_is_not_one : (nan : float) <> one.
Proof.
  intros H. apply (f_equal is_nan) in H. vm_compute in H. discriminate H.
Qed.

Lemma intercept_follows_row_labels_witness :
  get_column (df_columns (add_intercept x_sliced)) "intercept" = Some [one; nan]
  /\ ~ Forall (fun l => in_range 2 l = true) (df_index x_sliced)
  /\ ~ Permutation (df_index x_sliced) (RangeIndex 2).
Proof.
  destruct (intercept_follows_row_labels x_sliced) as (Hcol & _ & _ & Hperm & _).
  assert (Hout : ~ Forall (fun l => in_range 2 l = true) (df_index x_sliced)).
  { intros H. inversion H as [|l ls _ H2]. inversion H2 as [|l' ls' H3 _].
    discriminate H3. }
  split; [exact Hcol|]. split; [exact Hout|].
  intros Hp. apply Hout. apply Hperm; [|exact Hp].
  repeat constructor; simpl; intuition discriminate.
Defined.

(** C10 fails on the code where it says "only when the index is exactly
    0..n-1": under the row labels 1, 0 and under the row labels 0, 0, 1
    the index is another one and the column is all ones. *)
Lemma intercept_is_all_ones_on_other_indexes :
  df_index x_reversed <> RangeIndex 2
  /\ get_column (df_columns (add_intercept x_reversed)) "intercept"
     = Some [one; one]
  /\ df_index x_repeated_label <> RangeIndex 3
  /\ get_column (df_columns (add_intercept x_repeated_label)) "intercept"
     = Some [one; one; one].
Proof.
  split; [intros H; discriminate H|]. split; [vm_compute; reflexivity|].
  split; [intros H; discriminate H|]. vm_compute. reflexivity.
Qed.

(** Rows labelled 1, 2: the NaN of the intercept column reaches the fit,
    which returns NaN statistics and raises nothing. *)
Example nan_intercept_reaches_the_fit :
  exists self,
    __init__ (PyFrame x_sliced) (PySeries (mkSeries [LInt 1; LInt 2] [1; 2]))
             (PyBool true) (PyStr "ols") = Ok self
    /\ fit_model self
       = Ok (set_results self
               [("x"%string, [("coefficient"%string, nan);
                              ("standard_error"%string, nan);
                              ("t_stat"%string, nan); ("p_value"%string, nan)]);
                ("intercept"%string, [("coefficient"%string, nan);
                                      ("standard_error"%string, nan);
                                      ("t_stat"%string, nan);
                                      ("p_value"%string, nan)])], []).
Proof. eexists. split; [reflexivity|]. vm_compute. reflexivity. Qed.
(** ** Ordinary least squares on these tables *)

(** C3 fails on the code: with one observation and one column (n = k) the
    fit returns; the residual variance is 0 / 0 and the standard error,
    the t statistic and the p-value are NaN. *)
Lemma ols_fit_returns_when_n_equals_k :
  shape (self_x ols_n_equals_k) = (1%nat, 1%nat)
  /\ fit_model ols_n_equals_k
     = Ok (set_results ols_n_equals_k
             [("x"%string, [("coefficient"%string, 2);
                            ("standard_error"%string, nan);
                            ("t_stat"%string, nan);
                            ("p_value"%string, nan)])], []).
Proof. split; [reflexivity|]. vm_compute. reflexivity. Qed.

(** With x = 3 and y = 7 the computed residual is not zero: the residual
    variance is a positive number over 0, and the standard error is
    infinite. *)
Example ols_fit_is_infinite_when_n_equals_k :
  exists b,
    fit_model (mkModel (mkFrame [LInt 0] [("x"%string, [3])])
                       (YSeries (mkSeries [LInt 0] [7])) false "ols" None)
    = Ok (set_results (mkModel (mkFrame [LInt 0] [("x"%string, [3])])
                               (YSeries (mkSeries [LInt 0] [7])) false "ols" None)
            [("x"%string, [("coefficient"%string, b);
                           ("standard_error"%string, infinity);
                           ("t_stat"%string, 0);
                           ("p_value"%string, nan)])], []).
Proof. eexists. vm_compute. reflexivity. Qed.

Lemma ols_fit_has_no_degeneracy_check_witness :
  (forall e, ols_regression ols_n_equals_k = Raise e ->
     solve (xtx (self_x ols_n_equals_k)) (eye (snd (shape (self_x ols_n_equals_k))))
       = Raise e
     \/ align (df_index (self_x ols_n_equals_k)) (mkSeries [LInt 0] [2]) = Raise e)
  /\ (forall z yv,
     solve (xtx (self_x ols_n_equals_k)) (eye (snd (shape (self_x ols_n_equals_k))))
       = Ok z ->
     align (df_index (self_x ols_n_equals_k)) (mkSeries [LInt 0] [2]) = Ok yv ->
     ols_regression ols_n_equals_k
       = Ok (set_results ols_n_equals_k (ols_results (self_x ols_n_equals_k) z yv z))
     /\ ols_shat (self_x ols_n_equals_k) z yv =
        (let eps := vsub yv (x_dot (self_x ols_n_equals_k)
                                   (ols_beta (self_x ols_n_equals_k) z yv)) in
         fdiv (dot eps eps)
              (of_int (Z.of_nat (fst (shape (self_x ols_n_equals_k)))
                       - Z.of_nat (snd (shape (self_x ols_n_equals_k))))))).
Proof.
  apply (ols_fit_has_no_degeneracy_check ols_n_equals_k (ys := mkSeries [LInt 0] [2])).
  - reflexivity.
  - simpl. lia.
Defined.

Definition ols3_solved : matrix float :=
  Eval vm_compute in
    match solve (xtx (self_x ols3)) (eye 2) with Ok z => z | _ => [] end.

Lemma ols_p_value_is_upper_tail_witness :
  exists r,
    ols_regression ols3 = Ok (set_results ols3 r)
    /\ (forall name, In name (columns (self_x ols3)) ->
        exists rec, dict_get r name = Some rec)
    /\ (forall name rec, dict_get r name = Some rec ->
        exists t, dict_get rec "t_stat" = Some t
                  /\ dict_get rec "p_value" =
                     Some (t_sf t (Z.of_nat (fst (shape (self_x ols3)))
                                   - Z.of_nat (snd (shape (self_x ols3)))))).
Proof.
  apply (ols_p_value_is_upper_tail ols3 (ys := y3) (z := ols3_solved)
                                   (yv := [2; 4; 6.5])).
  - reflexivity.
  - vm_compute. reflexivity.
  - reflexivity.
  - reflexivity.
Defined.

Lemma ols_refit_is_identical_witness :
  fit_model ols3_fitted = Ok (ols3_fitted, [])
  /\ (forall stale, fit_model (set_results ols3 stale) = Ok (ols3_fitted, []))
  /\ (exists r, self_results ols3_fitted = Some r /\ ols3_fitted = set_results ols3 r).
Proof.
  apply (ols_refit_is_identical ols3).
  - reflexivity.
  - vm_compute. reflexivity.
Defined.

(** ** Logistic regression on these tables *)

Lemma logit_inference_witness :
  let beta := opt_x small_minim in
  let p := fitted_probabilities (self_x logit_small) beta in
  let s2 := fmul (of_int (Z.of_nat (fst (shape (self_x logit_small)))))
                 (mean (map (fun p_i => fmul p_i (fsub one p_i)) p)) in
  let covmatrix := scale s2 small_inv in
  let se := diag (msqrt covmatrix) in
  exists r out,
    logistic_regression logit_small = Ok (set_results logit_small r, out)
    /\ forall j name,
         nth_error (columns (self_x logit_small)) j = Some name ->
         ~ In name (skipn (S j) (columns (self_x logit_small))) ->
         nth j se nan = fsqrt (nth j (nth j covmatrix []) nan)
         /\ dict_get r name =
            Some [("coefficient"%string, nth j beta nan);
                  ("standard_error"%string, nth j se nan);
                  ("z_stat"%string, fdiv (nth j beta nan) (nth j se nan));
                  ("p_value"%string,
                   fmul (of_int 2)
                        (norm_sf (fabs (fdiv (nth j beta nan) (nth j se nan)))))].
Proof.
  apply (logit_inference logit_small (ys := y_small) (minim := small_minim)
                         (xi := small_inv)).
  - reflexivity.
  - vm_compute. reflexivity.
  - vm_compute. reflexivity.
  - reflexivity.
  - reflexivity.
  - repeat constructor.
Defined.

(** C4 fails on the code: at the starting point the likelihood and the
    gradient of [x_overflow] are NaN, the optimizer returns that point and
    reports failure, and the fit returns with it as the coefficient.  The
    gradient at the coefficient is NaN, which is below no tolerance. *)
Lemma logit_fit_returns_without_convergence :
  minimize (log_likelihood x_overflow y_overflow) (beta0 x_overflow)
           (gradient x_overflow y_overflow)
  = Ok (mkOptimizeResult [tenth] false)
  /\ gradient x_overflow y_overflow [tenth] = Ok [nan]
  /\ (abs nan <? gtol) = false
  /\ fit_model logit_overflow
     = Ok (set_results logit_overflow
             [("x"%string, [("coefficient"%string, tenth);
                            ("standard_error"%string, 0);
                            ("z_stat"%string, infinity);
                            ("p_value"%string, 0)])],
           [PrintArray [tenth]; PrintArray [0]; PrintInt 1; PrintArray [0]]).
Proof.
  split; [vm_compute; reflexivity|]. split; [vm_compute; reflexivity|].
  split; vm_compute; reflexivity.
Qed.

Lemma logit_fit_ignores_convergence_report_witness :
  @logistic_regression float scalar transcendental linalg stats minimizer
     logit_overflow
  = @logistic_regression float scalar transcendental linalg stats (reporting true)
     logit_overflow
  /\ (forall xi, inv (xtx (self_x logit_overflow)) = Ok xi ->
      @logistic_regression float scalar transcendental linalg stats minimizer
         logit_overflow =
      Ok (set_results logit_overflow
            (logit_results (self_x logit_overflow) (opt_x overflow_minim) xi),
          logit_prints (self_x logit_overflow) (opt_x overflow_minim) xi))
  /\ (forall e,
        @logistic_regression float scalar transcendental linalg stats minimizer
           logit_overflow = Raise e ->
        inv (xtx (self_x logit_overflow)) = Raise e).
Proof.
  apply (@logit_fit_ignores_convergence_report float scalar transcendental linalg
           stats minimizer (reporting true) logit_overflow y_overflow
           overflow_minim (mkOptimizeResult (opt_x overflow_minim) true)).
  - reflexivity.
  - vm_compute. reflexivity.
  - vm_compute. reflexivity.
  - reflexivity.
Defined.



(** ** The normal equations on these tables *)


(** ** Integers: the normal equations *)

Import Integers.

End Examples.

(** * More of the notebook *)

(** ** The constructor's validation *)

Section Validation.
Context {F : Type} {SC : Scalar F}.
Implicit Types (x : DataFrame F) (a b c d : pyval F).

(** X1: the constructor returns exactly on a DataFrame [x], a Series or
    DataFrame [y], a boolean flag and the type "ols" or "logit"; the
    instance then holds [y], the flag and the type as given, [x] with the
    intercept column when the flag is set and [x] itself when it is not,
    and no results. *)
Theorem init_returns_iff a b c d (self : RegressionModel F) :
  __init__ a b c d = Ok self <->
  exists x yv flag rt,
    a = PyFrame x
    /\ ((exists s, b = PySeries s /\ yv = YSeries s)
        \/ (exists y, b = PyFrame y /\ yv = YFrame y))
    /\ c = PyBool flag
    /\ d = PyStr rt
    /\ (rt = "ols"%string \/ rt = "logit"%string)
    /\ self = mkModel (if flag then add_intercept x else x) yv flag rt None.
Proof.
  split.
  - unfold __init__.
    destruct a as [x| | | | |]; simpl; try discriminate.
    destruct b as [y|s| | | |]; simpl; try discriminate;
      destruct c as [| |flag| | |]; simpl; try discriminate;
      destruct d as [| | |rt| |]; simpl; try discriminate;
      destruct (String.eqb_spec rt "ols") as [->|Hols]; simpl;
      try (intros H; injection H as <-;
           eexists _, _, _, _; repeat split; eauto; fail);
      destruct (String.eqb_spec rt "logit") as [->|Hlogit]; simpl;
      try discriminate;
      intros H; injection H as <-;
      eexists _, _, _, _; repeat split; eauto.
  - intros (x & yv & flag & rt & -> & Hy & -> & -> & Hrt & ->).
    destruct Hy as [(s & -> & ->)|(y & -> & ->)], Hrt as [-> | ->]; reflexivity.
Qed.

(** X2: the arguments are checked in the order x, y, create_intercept,
    regression_type, and the first that fails decides the message of the
    [RuntimeError]; an integer is no boolean, and a string that is neither
    "ols" nor "logit" has a message of its own. *)
Theorem init_first_invalid_argument a b c d :
  ((forall x, a <> PyFrame x) ->
   __init__ a b c d = Raise (RuntimeError "Matrix 'x' is not a DataFrame."))
  /\ (forall x, a = PyFrame x ->
      (forall s, b <> PySeries s) -> (forall y, b <> PyFrame y) ->
      __init__ a b c d = Raise (RuntimeError "Matrix 'y' is not a DataFrame."))
  /\ (forall x, a = PyFrame x ->
      (exists s, b = PySeries s) \/ (exists y, b = PyFrame y) ->
      (forall flag, c <> PyBool flag) ->
      __init__ a b c d =
      Raise (RuntimeError "Parameter 'create_intercept' must be a boolean value."))
  /\ (forall x flag, a = PyFrame x ->
      (exists s, b = PySeries s) \/ (exists y, b = PyFrame y) ->
      c = PyBool flag ->
      (forall rt, d = PyStr rt -> rt <> "ols"%string -> rt <> "logit"%string ->
       __init__ a b c d =
       Raise (RuntimeError
         "Only OLS and Logistic regressions ('ols' or 'logit', respectively) are supported"))
      /\ ((forall rt, d <> PyStr rt) ->
          __init__ a b c d =
          Raise (RuntimeError
            "Parameter 'regression_type' must be a string with value 'ols' or 'logit'."))).
Proof.
  split; [|split; [|split]].
  - intros Ha. destruct a as [x| | | | |]; try reflexivity. now destruct (Ha x).
  - intros x -> Hs Hy. destruct b as [y|s| | | |]; try reflexivity.
    + now destruct (Hy y).
    + now destruct (Hs s).
  - intros x -> Hb Hc.
    destruct Hb as [(s & ->)|(y & ->)]; destruct c as [| |flag| | |];
      try reflexivity; now destruct (Hc flag).
  - intros x flag -> Hb ->. split.
    + intros rt -> Hols Hlogit. apply String.eqb_neq in Hols, Hlogit.
      destruct Hb as [(s & ->)|(y & ->)]; unfold __init__; simpl;
        now rewrite Hols, Hlogit.
    + intros Hd.
      destruct Hb as [(s & ->)|(y & ->)]; destruct d as [| | |rt| |];
        try reflexivity; now destruct (Hd rt).
Qed.
End Validation.

(** ** [add_intercept] on any table *)

Section InterceptFacts.
Context {F : Type} {SC : Scalar F}.
Implicit Types (x : DataFrame F) (cols : list (string * list F)).

Lemma set_column_absent cols name (v : list F) :
  existsb (fun c => String.eqb (fst c) name) cols = false ->
  map (fun c => if String.eqb (fst c) name then (fst c, v) else c) cols = cols.
Proof.
  induction cols as [|c cols IH]; simpl; intros E; [reflexivity|].
  apply orb_false_iff in E as [Ec E]. now rewrite Ec, IH.
Qed.

Lemma set_column_twice cols name (v : list F) :
  set_column (set_column cols name v) name v = set_column cols name v.
Proof.
  unfold set_column. destruct (existsb _ cols) eqn:E.
  - assert (E' : existsb (fun c => String.eqb (fst c) name)
                   (map (fun c => if String.eqb (fst c) name then (fst c, v) else c)
                        cols) = true).
    { apply existsb_name. apply existsb_name in E.
      rewrite map_map. erewrite map_ext; [exact E|].
      intros c. now destruct (String.eqb (fst c) name). }
    rewrite E', map_map. apply map_ext. intros c.
    destruct (String.eqb (fst c) name) eqn:Ec; simpl; now rewrite Ec.
  - rewrite existsb_app. simpl. rewrite String.eqb_refl, orb_true_r.
    rewrite map_app, set_column_absent by exact E.
    simpl. now rewrite String.eqb_refl.
Qed.

Lemma set_column_others cols name (v : list F) :
  filter (fun c => negb (String.eqb (fst c) name)) (set_column cols name v)
  = filter (fun c => negb (String.eqb (fst c) name)) cols.
Proof.
  unfold set_column. destruct (existsb _ cols) eqn:E.
  - clear E. induction cols as [|c cols IH]; simpl; [reflexivity|].
    destruct (String.eqb (fst c) name) eqn:Ec; simpl; rewrite Ec; simpl;
      now rewrite IH.
  - rewrite filter_app. simpl. rewrite String.eqb_refl. simpl.
    now rewrite app_nil_r.
Qed.

Lemma aligned_ones_length (n : nat) (ix : list label) :
  length (aligned_ones n ix : list F) = length ix.
Proof. apply length_map. Qed.

(** X3: adding the intercept twice is adding it once: the second call
    finds the column and stores the same values in it. *)
Theorem add_intercept_idempotent x :
  add_intercept (add_intercept x) = add_intercept x.
Proof.
  rewrite (add_intercept_unfold (add_intercept x)).
  rewrite (add_intercept_unfold x). simpl.
  now rewrite set_column_twice.
Qed.

(** X4: [add_intercept] leaves the rest of the table alone.  The row
    labels and every column of another name stay as they are, in their
    order; a table whose columns all have n entries stays so; and the
    number of columns grows by one unless a column "intercept" was there. *)
Theorem add_intercept_keeps_the_table x :
  df_index (add_intercept x) = df_index x
  /\ filter (fun c => negb (String.eqb (fst c) "intercept"))
            (df_columns (add_intercept x))
     = filter (fun c => negb (String.eqb (fst c) "intercept")) (df_columns x)
  /\ (rectangular x -> rectangular (add_intercept x))
  /\ snd (shape (add_intercept x))
     = (if existsb (fun c => String.eqb (fst c) "intercept") (df_columns x)
        then snd (shape x) else S (snd (shape x))).
Proof.
  rewrite add_intercept_unfold. simpl. split; [reflexivity|].
  split; [apply set_column_others|]. split.
  - unfold rectangular, set_column. simpl. intros Hrect.
    destruct (existsb _ (df_columns x)).
    + apply Forall_map. eapply Forall_impl; [|exact Hrect].
      intros c Hc. destruct (String.eqb (fst c) "intercept"); [|exact Hc].
      simpl. apply aligned_ones_length.
    + apply Forall_app. split; [exact Hrect|].
      constructor; [|constructor]. simpl. apply aligned_ones_length.
  - unfold set_column. destruct (existsb _ (df_columns x)).
    + now rewrite length_map.
    + rewrite length_app. simpl. lia.
Qed.
End InterceptFacts.

(** ** Dictionaries with distinct keys *)

Section DictKeys.
Context {V : Type}.
Implicit Types (d : dict V) (k : string) (v : V).

Lemma dict_get_In d k v : dict_get d k = Some v -> In (k, v) d.
Proof.
  induction d as [|[k0 v0] d IH]; simpl; [discriminate|].
  destruct (String.eqb_spec k0 k) as [->|Hne].
  - intros H. injection H as ->. now left.
  - intros H. right. auto.
Qed.

Lemma In_dict_get d k v : NoDup (keys d) -> In (k, v) d -> dict_get d k = Some v.
Proof.
  induction d as [|[k0 v0] d IH]; simpl; intros Hnd Hin; [contradiction|].
  inversion Hnd as [|? ? Hfresh Hnd']; subst.
  destruct Hin as [H|Hin].
  - injection H as -> ->. now rewrite String.eqb_refl.
  - destruct (String.eqb_spec k0 k) as [->|Hne]; [|auto].
    exfalso. apply Hfresh. unfold keys. apply in_map_iff. now exists (k, v).
Qed.

Lemma dict_get_None d k : dict_get d k = None <-> ~ In k (keys d).
Proof.
  induction d as [|[k0 v0] d IH]; simpl; [tauto|].
  destruct (String.eqb_spec k0 k) as [->|Hne].
  - split; [discriminate|]. intros H. exfalso. apply H. now left.
  - rewrite IH. split; [intros H [H'|H']; [congruence|contradiction]|tauto].
Qed.

Lemma dict_set_keys_In d k v k' :
  In k' (keys (dict_set d k v)) <-> In k' (keys d) \/ k' = k.
Proof.
  induction d as [|[k0 v0] d IH]; simpl.
  - split; [intros [H|[]]; auto|intros [[]|H]; auto].
  - destruct (String.eqb_spec k0 k) as [->|Hne]; simpl.
    + split; [tauto|]. intros [H|H]; [exact H|]. left. congruence.
    + rewrite IH. tauto.
Qed.

Lemma dict_set_NoDup d k v : NoDup (keys d) -> NoDup (keys (dict_set d k v)).
Proof.
  induction d as [|[k0 v0] d IH]; simpl; intros Hnd.
  - repeat constructor. simpl. tauto.
  - inversion Hnd as [|? ? Hfresh Hnd']; subst.
    destruct (String.eqb_spec k0 k) as [->|Hne]; simpl.
    + constructor; assumption.
    + constructor; [|auto]. intros Hin. apply dict_set_keys_In in Hin.
      destruct Hin as [Hin|Heq]; [contradiction|congruence].
Qed.

Lemma assign_all_NoDup (f : nat -> V) names : forall s d,
  NoDup (keys d) -> NoDup (keys (assign_all f s names d)).
Proof.
  induction names as [|a names IH]; intros s d Hnd; [exact Hnd|].
  rewrite assign_all_cons. apply IH. now apply dict_set_NoDup.
Qed.

Lemma assign_all_keys_In (f : nat -> V) names k : forall s d,
  In k (keys (assign_all f s names d)) <-> In k (keys d) \/ In k names.
Proof.
  induction names as [|a names IH]; intros s d.
  - simpl. unfold assign_all. simpl. tauto.
  - rewrite assign_all_cons, IH, dict_set_keys_In. simpl.
    split; [intros [[H|H]|H]|intros [H|[H|H]]]; auto.
Qed.
End DictKeys.

(** ** What a fit returns *)

Section FitFacts.
Context {F : Type} {SC : Scalar F} {TR : Transcendental F} {LA : Linalg F}
        {ST : Stats F} {MI : Minimizer F}.
Local Open Scope num_scope.
Implicit Types (self : RegressionModel F) (x : DataFrame F) (ys : Series F).

Lemma logistic_regression_sets self self' out :
  logistic_regression self = Ok (self', out) ->
  exists r, self' = set_results self r /\ length out = 4.
Proof.
  unfold logistic_regression. simpl. destruct (self_y self); [|discriminate].
  destruct (minimize _ _ _) as [minim| |]; simpl; try discriminate.
  destruct (inv _) as [xi| |]; simpl; try discriminate.
  intros H. injection H as <- <-. eauto.
Qed.

Lemma store_results_fitted key names (beta se stat pv : list F) :
  fitted_results key (store_results key names beta se stat pv).
Proof.
  rewrite store_results_assign_all. split.
  - apply assign_all_NoDup. constructor.
  - intros name rec Hin. apply In_dict_get in Hin.
    + apply assign_all_inv in Hin as [Hin|(j & _ & ->)]; [discriminate|].
      unfold fitted_record. eauto.
    + apply assign_all_NoDup. constructor.
Qed.

Lemma store_results_has key names (beta se stat pv : list F) name :
  In name names <-> dict_get (store_results key names beta se stat pv) name <> None.
Proof.
  rewrite store_results_assign_all.
  destruct (dict_get _ name) eqn:E.
  - split; [discriminate|]. intros _.
    apply dict_get_In in E.
    assert (Hk : In name (keys (assign_all
                  (fun i => [("coefficient"%string, nth i beta nan);
                             ("standard_error"%string, nth i se nan);
                             (key, nth i stat nan);
                             ("p_value"%string, nth i pv nan)]) 0 names []))).
    { unfold keys. apply in_map_iff. now exists (name, d). }
    apply assign_all_keys_In in Hk as [[]|Hk]. exact Hk.
  - split; [|congruence]. intros Hin. exfalso.
    apply dict_get_None in E. apply E. apply assign_all_keys_In. now right.
Qed.

(** What [fit_model] stored, by regression type. *)
Lemma fit_model_stores self self' out :
  fit_model self = Ok (self', out) ->
  exists beta se stat pv,
    self' = set_results self
              (store_results (stat_key (self_regression_type self))
                             (columns (self_x self)) beta se stat pv)
    /\ (self_regression_type self = "ols"%string
        \/ self_regression_type self = "logit"%string)
    /\ length out = (if String.eqb (self_regression_type self) "ols" then 0 else 4).
Proof.
  intros Hfit. destruct (fit_model_returns_series _ Hfit) as [ys Hy].
  unfold fit_model, stat_key in *.
  destruct (String.eqb_spec (self_regression_type self) "ols") as [Ht|Ht].
  - rewrite (ols_regression_series _ Hy) in Hfit.
    destruct (solve _ _) as [z| |]; simpl in Hfit; try discriminate.
    destruct (align _ _) as [yv| |]; simpl in Hfit; try discriminate.
    injection Hfit as <- <-. unfold ols_results. eauto 10.
  - destruct (String.eqb_spec (self_regression_type self) "logit") as [Ht'|Ht'];
      [|discriminate].
    rewrite (logistic_regression_series _ Hy) in Hfit.
    destruct (minimize _ _ _) as [minim| |]; simpl in Hfit; try discriminate.
    destruct (inv _) as [xi| |]; simpl in Hfit; try discriminate.
    injection Hfit as <- <-. unfold logit_results. eauto 10.
Qed.

(** X5: a fit changes nothing but the results.  The table [x], the
    response [y], the flag and the type of the instance are what they
    were, the results exist afterwards, and an OLS fit prints nothing
    while a logistic fit prints four lines. *)
Theorem fit_model_keeps_the_dataset self self' out :
  fit_model self = Ok (self', out) ->
  self_x self' = self_x self
  /\ self_y self' = self_y self
  /\ self_create_intercept self' = self_create_intercept self
  /\ self_regression_type self' = self_regression_type self
  /\ self_results self' <> None
  /\ (self_regression_type self = "ols"%string -> out = [])
  /\ (self_regression_type self = "logit"%string -> length out = 4).
Proof.
  intros Hfit.
  destruct (fit_model_stores _ Hfit) as (beta & se & stat & pv & -> & _ & Hout).
  simpl. repeat split; try discriminate.
  - intros Ht. rewrite Ht in Hout. simpl in Hout. now destruct out.
  - intros Ht. rewrite Ht in Hout. exact Hout.
Qed.

(** X7: the results of a fit answer for the column names and for nothing
    else.  After a fit of either type, [results[name]] exists exactly for
    the names of the columns of the design matrix (any other name is a
    missing key), no key occurs twice even if a column name does, and every
    record consists of coefficient, standard_error, the statistic of the
    type (t_stat for "ols", z_stat for "logit") and p_value, in this order. *)
Theorem fit_results_answer_for_the_columns self self' out :
  fit_model self = Ok (self', out) ->
  exists r,
    self_results self' = Some r
    /\ fitted_results (stat_key (self_regression_type self)) r
    /\ (forall name, In name (columns (self_x self)) <-> dict_get r name <> None)
    /\ length r <= snd (shape (self_x self)).
Proof.
  intros Hfit.
  destruct (fit_model_stores _ Hfit) as (beta & se & stat & pv & -> & _ & _).
  eexists. split; [reflexivity|]. split; [apply store_results_fitted|].
  split; [intros name; apply store_results_has|].
  rewrite <- columns_length. apply store_results_at_most_k.
Qed.
End FitFacts.

Section FitPaths.
Context {F : Type} {SC : Scalar F} {TR : Transcendental F} {LA : Linalg F}
        {ST : Stats F} {MI : Minimizer F}.
Local Open Scope num_scope.
Implicit Types (self : RegressionModel F) (x : DataFrame F) (ys : Series F).

Lemma init_type (a b c d : pyval F) self :
  __init__ a b c d = Ok self ->
  (self_regression_type self = "ols"%string
   \/ self_regression_type self = "logit"%string)
  /\ self_results self = None.
Proof.
  unfold __init__.
  destruct a as [x| | | | |]; simpl; try discriminate.
  destruct b as [y|s| | | |]; simpl; try discriminate;
    destruct c as [| |flag| | |]; simpl; try discriminate;
    destruct d as [| | |rt| |]; simpl; try discriminate;
    destruct (String.eqb_spec rt "ols") as [->|Hols]; simpl;
    try (intros H; injection H as <-; simpl; auto; fail);
    destruct (String.eqb_spec rt "logit") as [->|Hlogit]; simpl;
    try discriminate;
    intros H; injection H as <-; simpl; auto.
Qed.

(** X6: an instance the constructor returned is fitted by one of the two
    estimators.  It has no results yet, its type is "ols" or "logit", and
    [fit_model] is the OLS fit for the one and the logistic fit for the
    other: the branch that raises "Wrong Regression Input" is not taken. *)
Theorem constructed_model_is_fitted_by_its_type (a b c d : pyval F) self :
  __init__ a b c d = Ok self ->
  self_results self = None
  /\ ((self_regression_type self = "ols"%string
       /\ fit_model self = (self' <- ols_regression self ;; Ok (self', []))%py)
      \/ (self_regression_type self = "logit"%string
          /\ fit_model self = logistic_regression self)).
Proof.
  intros Hinit. destruct (init_type _ _ _ _ Hinit) as [[Ht|Ht] Hres].
  - split; [exact Hres|]. left. split; [exact Ht|]. now apply fit_model_ols.
  - split; [exact Hres|]. right. split; [exact Ht|]. now apply fit_model_logit.
Qed.

Lemma nth_enumerate_in {A : Type} (l : list A) (j : nat) (d : A) :
  j < length l -> nth j (enumerate l) (0, d) = (j, nth j l d).
Proof.
  intros Hj. unfold enumerate.
  rewrite combine_nth by now rewrite length_seq.
  now rewrite seq_nth.
Qed.

(** X8: the record of an OLS coefficient.  When the solver returns the
    k x k array Z and [y] aligns with [x], the record of the column at
    position j holds beta_j, the standard error sqrt(shat * Z_jj) with
    shat = eps.eps / (n - k), the t statistic beta_j / se_j and its
    p-value. *)
Theorem ols_record_contents self ys (z : matrix F) (yv : list F) :
  self_y self = YSeries ys ->
  solve (xtx (self_x self)) (eye (snd (shape (self_x self)))) = Ok z ->
  length z = snd (shape (self_x self)) ->
  Forall (fun row => length row = snd (shape (self_x self))) z ->
  align (df_index (self_x self)) ys = Ok yv ->
  let beta := matvec z (xt_dot (self_x self) yv) in
  let eps := vsub yv (x_dot (self_x self) beta) in
  let shat := dot eps eps
              / of_int (Z.of_nat (fst (shape (self_x self)))
                        - Z.of_nat (snd (shape (self_x self)))) in
  exists r,
    ols_regression self = Ok (set_results self r)
    /\ forall j name,
         nth_error (columns (self_x self)) j = Some name ->
         ~ In name (skipn (S j) (columns (self_x self))) ->
         let se_j := fsqrt (shat * nth j (nth j z []) nan) in
         dict_get r name =
         Some [("coefficient"%string, nth j beta nan);
               ("standard_error"%string, se_j);
               ("t_stat"%string, nth j beta nan / se_j);
               ("p_value"%string,
                t_sf (nth j beta nan / se_j)
                     (Z.of_nat (fst (shape (self_x self)))
                      - Z.of_nat (snd (shape (self_x self)))))].
Proof.
  intros Hy Hz Hlen Hrows Hal. cbv zeta.
  rewrite (ols_regression_series _ Hy), Hz, Hal. unfold bind.
  eexists. split; [reflexivity|].
  intros j name Hj Hlast.
  assert (Hjk : j < snd (shape (self_x self))).
  { rewrite <- columns_length. apply nth_error_Some. congruence. }
  unfold ols_results. rewrite store_results_assign_all.
  rewrite (assign_all_get _ _ _ 0 [] Hj Hlast). simpl.
  assert (Hse : nth j (ols_serror (self_x self) z yv z) nan
                = fsqrt (ols_shat (self_x self) z yv * nth j (nth j z []) nan)).
  { unfold ols_serror.
    rewrite (nth_map_in fsqrt _ nan nan) by (rewrite diag_length, scale_length; lia).
    rewrite nth_diag by (rewrite scale_length; lia).
    now rewrite (@nth_scale _ _ _ _ (snd (shape (self_x self)))) by (auto; lia). }
  assert (Ht : nth j (ols_tstat (self_x self) z yv z) nan
               = nth j (ols_beta (self_x self) z yv) nan
                 / nth j (ols_serror (self_x self) z yv z) nan).
  { unfold ols_tstat.
    rewrite (nth_map_in
               (fun i => snd i / nth (fst i) (ols_serror (self_x self) z yv z) nan)
               _ (0, nan) nan)
      by (rewrite enumerate_length; unfold ols_beta; rewrite matvec_length; lia).
    rewrite nth_enumerate_in
      by (unfold ols_beta; rewrite matvec_length; lia).
    reflexivity. }
  assert (Hp : nth j (ols_pval (self_x self) z yv z) nan
               = t_sf (nth j (ols_tstat (self_x self) z yv z) nan)
                      (dof (self_x self))).
  { unfold ols_pval.
    rewrite (nth_map_in (fun t => t_sf t (dof (self_x self))) _ nan nan);
      [reflexivity|].
    rewrite ols_tstat_length. lia. }
  rewrite Hp, Ht, Hse. reflexivity.
Qed.

(** X9: an OLS fit of tables with different numbers of rows never
    returns.  The solver runs first, so its exception comes first; when it
    returns, the product [x.T.dot(y)] raises the [ValueError] of pandas and
    no results are stored. *)
Theorem ols_fit_rejects_differing_row_counts self ys :
  self_y self = YSeries ys ->
  length (df_index (self_x self)) <> length (s_index ys) ->
  (forall self', ols_regression self <> Ok self')
  /\ (forall z,
        solve (xtx (self_x self)) (eye (snd (shape (self_x self)))) = Ok z ->
        ols_regression self = Raise (ValueError "matrices are not aligned"))
  /\ (forall e,
        solve (xtx (self_x self)) (eye (snd (shape (self_x self)))) = Raise e ->
        ols_regression self = Raise e).
Proof.
  intros Hy Hlen. rewrite (ols_regression_series _ Hy).
  rewrite (align_length_mismatch _ _ Hlen). repeat split.
  - intros self'. destruct (solve _ _); simpl; discriminate.
  - intros z ->. reflexivity.
  - intros e ->. reflexivity.
Qed.
End FitPaths.

(** ** The closures of the logistic fit *)

Section Closures.
Context {F : Type} {SC : Scalar F} {TR : Transcendental F}.
Local Open Scope num_scope.
Implicit Types (x : DataFrame F) (ys : Series F) (beta : list F).

Lemma for_each_app {I A : Type} (body : I -> A -> result A) (l1 l2 : list I) :
  forall acc,
    for_each body (l1 ++ l2) acc
    = (acc' <- for_each body l1 acc ;; for_each body l2 acc')%py.
Proof.
  induction l1 as [|i l1 IH]; intros acc; simpl; [reflexivity|].
  destruct (body i acc); simpl; auto.
Qed.

Lemma for_each_ext_in {I A : Type} (body body' : I -> A -> result A) (l : list I) :
  (forall i acc, In i l -> body i acc = body' i acc) ->
  forall acc, for_each body l acc = for_each body' l acc.
Proof.
  induction l as [|i l IH]; intros Hext acc; simpl; [reflexivity|].
  rewrite (Hext i acc) by now left.
  destruct (body' i acc); simpl; auto.
  apply IH. intros j acc0 Hj. apply Hext. now right.
Qed.

(** A loop whose body returns and keeps [P] returns with [P]. *)
Lemma for_each_returns {I A : Type} (P : A -> Prop)
      (body : I -> A -> result A) (l : list I) :
  (forall i acc, In i l -> P acc -> exists acc', body i acc = Ok acc' /\ P acc') ->
  forall acc, P acc -> exists r, for_each body l acc = Ok r /\ P r.
Proof.
  induction l as [|i l IH]; intros Hbody acc Hacc; simpl; [eauto|].
  destruct (Hbody i acc) as (acc' & -> & Hacc'); [now left|exact Hacc|].
  simpl. apply IH; [|exact Hacc']. intros j a Hj. apply Hbody. now right.
Qed.

Lemma iloc_row_in x (i : nat) :
  i < length (df_index x) ->
  iloc_row x i = Ok (map (fun c => nth i (snd c) nan) (df_columns x)).
Proof.
  intros Hi. unfold iloc_row. apply Nat.ltb_lt in Hi. now rewrite Hi.
Qed.

Lemma iloc_row_out x (i : nat) :
  length (df_index x) <= i ->
  iloc_row x i = Raise (IndexError "single positional indexer is out-of-bounds").
Proof.
  intros Hi. unfold iloc_row. apply Nat.ltb_ge in Hi. now rewrite Hi.
Qed.

Lemma iloc_in ys (i : nat) :
  well_formed ys -> i < length (s_index ys) -> exists v, iloc ys i = Ok v.
Proof.
  intros Hwf Hi. unfold iloc. rewrite <- Hwf in Hi.
  destruct (nth_error (s_values ys) i) eqn:E; [eauto|].
  apply nth_error_None in E. lia.
Qed.

(** The bodies of the two loops. *)
Definition likelihood_step x ys beta (i : nat) (tll : F) : result F :=
  (xi <- iloc_row x i ;;
   yi <- iloc ys i ;;
   let linear_comb := dot xi beta in
   let p := fexp linear_comb / (one + fexp linear_comb) in
   let oll := yi * flog p + (one - yi) * flog (one - p) in
   Ok (tll + oll))%py.

Definition gradient_step x ys beta (i : nat) (gradient1 : list F)
  : result (list F) :=
  (xi <- iloc_row x i ;;
   yi <- iloc ys i ;;
   let linear_comb := dot xi beta in
   let p := fexp linear_comb / (one + fexp linear_comb) in
   Ok (vadd gradient1 (map (fun v => v * (yi - p)) xi)))%py.

Lemma log_likelihood_loop x ys beta :
  log_likelihood x ys beta
  = (tll <- for_each (likelihood_step x ys beta)
                     (seq 0 (length (s_index ys))) zero ;;
     Ok (- tll))%py.
Proof. reflexivity. Qed.

Lemma gradient_loop x ys beta :
  gradient x ys beta
  = (g <- for_each (gradient_step x ys beta)
                   (seq 0 (length (s_index ys))) (repeat zero (length beta)) ;;
     Ok (map fneg g))%py.
Proof. reflexivity. Qed.

Lemma vadd_length (u v : list F) : length (vadd u v) = Nat.min (length u) (length v).
Proof. unfold vadd. now rewrite length_map, length_combine. Qed.

(** X10: the closures read [x] and [y] by position.  For [beta] with one
    entry per column of [x]: with at most as many rows in [y] as in [x]
    both return, the gradient with one entry per coefficient; with more
    rows in [y] both raise the [IndexError] of [x.iloc]. *)
Theorem closures_read_by_position x ys beta :
  well_formed ys ->
  length beta = snd (shape x) ->
  (length (s_index ys) <= length (df_index x) ->
   (exists v, log_likelihood x ys beta = Ok v)
   /\ (exists g, gradient x ys beta = Ok g /\ length g = length beta))
  /\ (length (df_index x) < length (s_index ys) ->
      log_likelihood x ys beta
      = Raise (IndexError "single positional indexer is out-of-bounds")
      /\ gradient x ys beta
         = Raise (IndexError "single positional indexer is out-of-bounds")).
Proof.
  intros Hwf Hbeta. split.
  - intros Hle. split.
    + rewrite log_likelihood_loop.
      destruct (for_each_returns (fun _ : F => True) (likelihood_step x ys beta)
                  (seq 0 (length (s_index ys)))) with (acc := zero)
        as (r & -> & _); [|exact I|simpl; eauto].
      intros i acc Hi _. apply in_seq in Hi. unfold likelihood_step.
      rewrite iloc_row_in by lia.
      destruct (@iloc_in ys i Hwf) as [yi ->]; [lia|]. simpl. eauto.
    + rewrite gradient_loop.
      destruct (for_each_returns
                  (fun g : list F => length g = length beta)
                  (gradient_step x ys beta)
                  (seq 0 (length (s_index ys)))) with (acc := repeat zero (length beta))
        as (r & -> & Hr).
      * intros i acc Hi Hacc. apply in_seq in Hi. unfold gradient_step.
        rewrite iloc_row_in by lia.
        destruct (@iloc_in ys i Hwf) as [yi ->]; [lia|]. simpl.
        eexists. split; [reflexivity|].
        rewrite vadd_length, !length_map, Hacc. simpl in Hbeta. lia.
      * apply repeat_length.
      * simpl. eexists. split; [reflexivity|].
        rewrite length_map. exact Hr.
  - intros Hlt.
    assert (Hseq : seq 0 (length (s_index ys))
                   = seq 0 (length (df_index x))
                     ++ length (df_index x)
                        :: seq (S (length (df_index x)))
                               (length (s_index ys) - S (length (df_index x)))%nat).
    { replace (length (s_index ys))
        with (length (df_index x)
              + S (length (s_index ys) - S (length (df_index x))))%nat
        at 1 by lia.
      now rewrite seq_app. }
    split.
    + rewrite log_likelihood_loop, Hseq, for_each_app.
      destruct (for_each_returns (fun _ : F => True) (likelihood_step x ys beta)
                  (seq 0 (length (df_index x)))) with (acc := zero)
        as (r & -> & _); [|exact I|].
      * intros i acc Hi _. apply in_seq in Hi. unfold likelihood_step.
        rewrite iloc_row_in by lia.
        destruct (@iloc_in ys i Hwf) as [yi ->]; [lia|]. simpl. eauto.
      * simpl. unfold likelihood_step at 1. now rewrite iloc_row_out by lia.
    + rewrite gradient_loop, Hseq, for_each_app.
      destruct (for_each_returns (fun _ : list F => True) (gradient_step x ys beta)
                  (seq 0 (length (df_index x)))) with (acc := repeat zero (length beta))
        as (r & -> & _); [|exact I|].
      * intros i acc Hi _. apply in_seq in Hi. unfold gradient_step.
        rewrite iloc_row_in by lia.
        destruct (@iloc_in ys i Hwf) as [yi ->]; [lia|]. simpl. eauto.
      * simpl. unfold gradient_step at 1. now rewrite iloc_row_out by lia.
Qed.

Lemma iloc_row_head (m : nat) x (i : nat) :
  i < m -> m <= length (df_index x) ->
  iloc_row (head_rows m x) i = iloc_row x i.
Proof.
  intros Hi Hm. rewrite (iloc_row_in x) by lia.
  rewrite iloc_row_in by (simpl; rewrite length_firstn; lia).
  simpl. rewrite map_map. f_equal. apply map_ext. intros c. simpl.
  rewrite nth_firstn. apply Nat.ltb_lt in Hi. now rewrite Hi.
Qed.

(** X11: rows of [x] beyond the length of [y] are not read.  With m rows
    in [y] and at least m in [x], the likelihood and the gradient are
    those of the first m rows of [x]: a logistic fit of a shorter [y] is
    silently a fit of the head of [x]. *)
Theorem closures_ignore_later_rows x ys beta :
  length (s_index ys) <= length (df_index x) ->
  log_likelihood x ys beta
  = log_likelihood (head_rows (length (s_index ys)) x) ys beta
  /\ gradient x ys beta
     = gradient (head_rows (length (s_index ys)) x) ys beta.
Proof.
  intros Hle. rewrite !log_likelihood_loop, !gradient_loop. split.
  - rewrite (for_each_ext_in (likelihood_step x ys beta)
               (likelihood_step (head_rows (length (s_index ys)) x) ys beta));
      [reflexivity|].
    intros i acc Hi. apply in_seq in Hi. unfold likelihood_step.
    now rewrite iloc_row_head by lia.
  - rewrite (for_each_ext_in (gradient_step x ys beta)
               (gradient_step (head_rows (length (s_index ys)) x) ys beta));
      [reflexivity|].
    intros i acc Hi. apply in_seq in Hi. unfold gradient_step.
    now rewrite iloc_row_head by lia.
Qed.
End Closures.

(** ** The profit cells *)

Module ProfitFloats.
Import Float64.

(** The whole quantities the demand curve prices at 0 or more: 0 to 600. *)
Definition whole_quantities : list Z := map Z.of_nat (seq 0 601).

(** What is computed at one quantity in binary64. *)
Definition agrees_at (q : Z) : bool :=
  PrimFloat.leb (Tutorial.profit (of_Z q)) (Tutorial.profit (of_Z 255))
  && PrimFloat.eqb
       (PrimFloat.div
          (PrimFloat.sub (Tutorial.profit (of_Z (q + 1)))
                         (Tutorial.profit (of_Z (q - 1))))
          (of_Z 2))
       (of_Z (255 - q))
  && PrimFloat.eqb (Tutorial.Negated.profit (of_Z q))
                   (PrimFloat.opp (Tutorial.profit (of_Z q))).

Lemma agrees_on_whole_quantities : forallb agrees_at whole_quantities = true.
Proof. vm_compute. reflexivity. Qed.

(** X15: in binary64, the arithmetic of the notebook, at every whole
    quantity q from 0 to 600 the profit is at most that at 255, the
    central difference of the cell "Gradient at q=200", taken at q, is
    255 - q without rounding error, and the second [profit] is the first
    negated. *)
Theorem profit_in_binary64 (q : Z) :
  (0 <= q <= 600)%Z ->
  PrimFloat.leb (Tutorial.profit (of_Z q)) (Tutorial.profit (of_Z 255)) = true
  /\ PrimFloat.eqb
       (PrimFloat.div
          (PrimFloat.sub (Tutorial.profit (of_Z (q + 1)))
                         (Tutorial.profit (of_Z (q - 1))))
          (of_Z 2))
       (of_Z (255 - q)) = true
  /\ PrimFloat.eqb (Tutorial.Negated.profit (of_Z q))
                   (PrimFloat.opp (Tutorial.profit (of_Z q))) = true.
Proof.
  intros Hq.
  assert (Hin : In q whole_quantities).
  { unfold whole_quantities. apply in_map_iff.
    exists (Z.to_nat q). split; [lia|]. apply in_seq. lia. }
  pose proof (proj1 (forallb_forall agrees_at whole_quantities)
                    agrees_on_whole_quantities q Hin) as H.
  unfold agrees_at in H.
  apply andb_true_iff in H. destruct H as [H H3].
  apply andb_true_iff in H. destruct H as [H1 H2].
  auto.
Qed.
End ProfitFloats.

(** ** The printed summary *)

Section SummaryFacts.
Context {F : Type} {SC : Scalar F} {TR : Transcendental F} {LA : Linalg F}
        {ST : Stats F} {MI : Minimizer F} {DI : Display F}.
Implicit Types (self : RegressionModel F) (r : dict (dict F)).

(** The header and the width of the coefficient column, by regression
    type. *)
Definition header_of (regression_type : string) : string :=
  if String.eqb regression_type "ols" then ols_header else logit_header.

Definition coefficient_width (regression_type : string) : nat :=
  if String.eqb regression_type "ols" then 15 else 17.

(** The line of a record holding [b], [s], [t] and [p]. *)
Definition row_line (w_coef : nat) (name : string) (b s t p : F) : string :=
  (ljust name 25
   ++ ljust ("| " ++ pystr (pyround b 3)) w_coef
   ++ ljust ("| " ++ pystr (pyround s 3)) 17
   ++ ljust ("| " ++ pystr (pyround t 3)) 15
   ++ ljust ("| " ++ pystr (pyround p 3)) 15)%string.

Lemma string_length_append (s1 s2 : string) :
  String.length (s1 ++ s2) = String.length s1 + String.length s2.
Proof. induction s1 as [|c s1 IH]; simpl; [reflexivity|now rewrite IH]. Qed.

Lemma str_mul_length (n : nat) : String.length (str_mul " " n) = n.
Proof. induction n as [|n IH]; simpl; [reflexivity|now rewrite IH]. Qed.

Lemma ljust_length (s : string) (width : nat) :
  String.length (ljust s width) = Nat.max (String.length s) width.
Proof.
  unfold ljust. rewrite string_length_append, str_mul_length. lia.
Qed.

Lemma summary_row_fitted key (w_coef : nat) r name (b s t p : F) :
  key = "t_stat"%string \/ key = "z_stat"%string ->
  dict_get r name
  = Some [("coefficient"%string, b); ("standard_error"%string, s); (key, t);
          ("p_value"%string, p)] ->
  summary_row key w_coef r name = inr (row_line w_coef name b s t p).
Proof.
  intros Hkey Hget. unfold summary_row. rewrite Hget.
  destruct Hkey as [-> | ->]; reflexivity.
Qed.

Lemma summary_rows_fitted key (w_coef : nat) r :
  key = "t_stat"%string \/ key = "z_stat"%string ->
  forall entries : dict (dict F),
    (forall name rec, In (name, rec) entries ->
                      dict_get r name = Some rec /\ fitted_record key rec) ->
    exists lines,
      summary_rows key w_coef r (keys entries) = (lines, None)
      /\ length lines = length entries
      /\ forall j name rec,
           nth_error entries j = Some (name, rec) ->
           exists b s t p,
             rec = [("coefficient"%string, b); ("standard_error"%string, s);
                    (key, t); ("p_value"%string, p)]
             /\ nth_error lines j = Some (row_line w_coef name b s t p).
Proof.
  intros Hkey. induction entries as [|[name rec] entries IH]; intros Hall.
  - exists []. split; [reflexivity|split; [reflexivity|]].
    intros [|j] ? ? H; discriminate.
  - destruct IH as (lines & Hrows & Hlen & Hnth).
    { intros n0 rec0 Hin. apply Hall. now right. }
    destruct (Hall name rec) as [Hget (b & s & t & p & Hrec)]; [now left|].
    exists (row_line w_coef name b s t p :: lines).
    simpl. rewrite Hrec in Hget. rewrite (@summary_row_fitted key w_coef r name b s t p Hkey Hget).
    rewrite Hrows. simpl.
    split; [reflexivity|split; [now rewrite Hlen|]].
    intros [|j] n0 rec0 Hj; simpl in Hj.
    + injection Hj as <- <-. exists b, s, t, p. now split.
    + now apply Hnth.
Qed.

Lemma summary_table_fitted header key (w_coef : nat) r :
  key = "t_stat"%string \/ key = "z_stat"%string ->
  fitted_results key r ->
  exists lines,
    summary_table header key w_coef (Some r) = (header :: lines, None)
    /\ length lines = length r
    /\ forall j name rec,
         nth_error r j = Some (name, rec) ->
         exists b s t p,
           rec = [("coefficient"%string, b); ("standard_error"%string, s);
                  (key, t); ("p_value"%string, p)]
           /\ nth_error lines j = Some (row_line w_coef name b s t p).
Proof.
  intros Hkey [Hnd Hrec].
  destruct (@summary_rows_fitted key w_coef r Hkey r) as (lines & Hrows & Hlen & Hnth).
  { intros name rec Hin. split; [now apply In_dict_get|now apply (Hrec name)]. }
  exists lines. unfold summary_table. rewrite Hrows. auto.
Qed.

Lemma summary_by_type self :
  self_regression_type self = "ols"%string
  \/ self_regression_type self = "logit"%string ->
  summary self
  = summary_table (header_of (self_regression_type self))
                  (stat_key (self_regression_type self))
                  (coefficient_width (self_regression_type self))
                  (self_results self)
  /\ (stat_key (self_regression_type self) = "t_stat"%string
      \/ stat_key (self_regression_type self) = "z_stat"%string).
Proof.
  unfold summary, header_of, stat_key, coefficient_width.
  intros [-> | ->]; simpl; auto.
Qed.

(** X16: after a fit that returned, [summary] raises nothing and prints
    the header of the model's type and then one line per stored record,
    in the order of the records: the name and the four rounded entries,
    each padded to its column. *)
Theorem summary_after_a_fit self self' out :
  fit_model self = Ok (self', out) ->
  exists r lines,
    self_results self' = Some r
    /\ summary self' = (header_of (self_regression_type self) :: lines, None)
    /\ length lines = length r
    /\ forall j name rec,
         nth_error r j = Some (name, rec) ->
         exists b s t p,
           rec = [("coefficient"%string, b); ("standard_error"%string, s);
                  (stat_key (self_regression_type self), t);
                  ("p_value"%string, p)]
           /\ nth_error lines j
              = Some (row_line (coefficient_width (self_regression_type self))
                               name b s t p).
Proof.
  intros Hfit.
  destruct (fit_model_stores _ Hfit) as (beta & se & stat & pv & -> & Htype & _).
  set (r := store_results _ _ _ _ _ _).
  destruct (summary_by_type (set_results self r) Htype) as [Hsum Hkey].
  simpl in Hsum, Hkey.
  destruct (summary_table_fitted (header_of (self_regression_type self))
              (coefficient_width (self_regression_type self)) Hkey
              (store_results_fitted _ (columns (self_x self)) beta se stat pv))
    as (lines & Htab & Hlen & Hnth).
  exists r, lines. split; [reflexivity|].
  split; [rewrite Hsum; exact Htab|]. split; assumption.
Qed.

(** X17: before a fit there is no attribute [results]: on a model as the
    constructor returns it, [summary] prints the header and then raises
    [AttributeError]. *)
Theorem summary_before_a_fit (a b c d : pyval F) self :
  __init__ a b c d = Ok self ->
  summary self
  = ([header_of (self_regression_type self)],
     Some (AttributeError "'RegressionModel' object has no attribute 'results'")).
Proof.
  intros Hinit. destruct (init_type _ _ _ _ Hinit) as [Htype Hnone].
  destruct (summary_by_type self Htype) as [-> _]. now rewrite Hnone.
Qed.

Lemma row_line_length (w_coef : nat) (name : string) (b s t p : F) :
  String.length (row_line w_coef name b s t p)
  = Nat.max (String.length name) 25
    + Nat.max (2 + String.length (pystr (pyround b 3))) w_coef
    + Nat.max (2 + String.length (pystr (pyround s 3))) 17
    + Nat.max (2 + String.length (pystr (pyround t 3))) 15
    + Nat.max (2 + String.length (pystr (pyround p 3))) 15.
Proof.
  unfold row_line. rewrite !string_length_append, !ljust_length.
  rewrite !string_length_append. simpl. lia.
Qed.

(** X18: a line that [summary] prints for a key is made of the name and
    of the four entries read from its record, and is never narrower than
    the columns of the header (87 characters for OLS, 89 for a logistic
    fit); it has exactly their width when the name has at most 25
    characters and each rounded number fits its column behind "| ", and
    a longer name or number shifts what follows to the right. *)
Theorem summary_row_width key (w_coef : nat) r name line :
  summary_row key w_coef r name = inr line ->
  exists rec b s t p,
    dict_get r name = Some rec
    /\ dict_get rec "coefficient" = Some b
    /\ dict_get rec "standard_error" = Some s
    /\ dict_get rec key = Some t
    /\ dict_get rec "p_value" = Some p
    /\ line = row_line w_coef name b s t p
    /\ 25 + w_coef + 17 + 15 + 15 <= String.length line
    /\ String.length line
       = Nat.max (String.length name) 25
         + Nat.max (2 + String.length (pystr (pyround b 3))) w_coef
         + Nat.max (2 + String.length (pystr (pyround s 3))) 17
         + Nat.max (2 + String.length (pystr (pyround t 3))) 15
         + Nat.max (2 + String.length (pystr (pyround p 3))) 15.
Proof.
  unfold summary_row, cell. intros Hrow.
  destruct (dict_get r name) as [rec|]; [|discriminate].
  destruct (dict_get rec "coefficient") as [b|] eqn:Hb; [|discriminate].
  destruct (dict_get rec "standard_error") as [s|] eqn:Hs; [|discriminate].
  destruct (dict_get rec key) as [t|] eqn:Ht; [|discriminate].
  destruct (dict_get rec "p_value") as [p|] eqn:Hp; [|discriminate].
  assert (Hline : line = row_line w_coef name b s t p)
    by (injection Hrow as <-; reflexivity).
  clear Hrow. subst line.
  exists rec, b, s, t, p.
  rewrite row_line_length. repeat (split; [assumption || reflexivity|]).
  split; lia.
Qed.
End SummaryFacts.

(** ** Runs of these properties on the concrete tables *)

Module MoreExamples.
Import Float64 Data Integers IntegerDisplay.
Local Open Scope float_scope.

Lemma ols3_fit_returns : fit_model ols3 = Ok (ols3_fitted, []).
Proof. vm_compute. reflexivity. Qed.

Lemma ols3_is_constructed :
  __init__ (PyFrame x3) (PySeries y3) (PyBool true) (PyStr "ols") = Ok ols3.
Proof. vm_compute. reflexivity. Qed.

Lemma fit_model_keeps_the_dataset_witness :
  self_x ols3_fitted = self_x ols3
  /\ self_y ols3_fitted = self_y ols3
  /\ self_create_intercept ols3_fitted = self_create_intercept ols3
  /\ self_regression_type ols3_fitted = self_regression_type ols3
  /\ self_results ols3_fitted <> None
  /\ (self_regression_type ols3 = "ols"%string -> @nil (printed float) = [])
  /\ (self_regression_type ols3 = "logit"%string
      -> length (@nil (printed float)) = 4%nat).
Proof.
  apply (fit_model_keeps_the_dataset ols3). vm_compute. reflexivity.
Defined.

Lemma constructed_model_is_fitted_by_its_type_witness :
  self_results ols3 = None
  /\ ((self_regression_type ols3 = "ols"%string
       /\ fit_model ols3 = (self' <- ols_regression ols3 ;; Ok (self', []))%py)
      \/ (self_regression_type ols3 = "logit"%string
          /\ fit_model ols3 = logistic_regression ols3)).
Proof.
  apply (constructed_model_is_fitted_by_its_type
           (PyFrame x3) (PySeries y3) (PyBool true) (PyStr "ols")).
  vm_compute. reflexivity.
Defined.

Lemma fit_results_answer_for_the_columns_witness :
  exists r,
    self_results ols3_fitted = Some r
    /\ fitted_results (stat_key (self_regression_type ols3)) r
    /\ (forall name, In name (columns (self_x ols3)) <-> dict_get r name <> None)
    /\ (length r <= snd (shape (self_x ols3)))%nat.
Proof.
  apply (fit_results_answer_for_the_columns ols3 (out := [])).
  vm_compute. reflexivity.
Defined.

(** What [np.linalg.solve] returned in the fit of [ols3]. *)
Definition ols3_inverse : matrix float :=
  Eval vm_compute in
    match solve (xtx (self_x ols3)) (eye (snd (shape (self_x ols3)))) with
    | Ok z => z
    | _ => []
    end.

Lemma ols_record_contents_witness :
  exists r,
    ols_regression ols3 = Ok (set_results ols3 r)
    /\ exists b s, dict_get r "x"
       = Some [("coefficient"%string, b); ("standard_error"%string, s);
               ("t_stat"%string, b / s);
               ("p_value"%string, t_sf (b / s) (of_int 1))].
Proof.
  destruct (ols_record_contents ols3 (ys := y3) (z := ols3_inverse)
              (yv := s_values y3))
    as (r & Hfit & Hrec);
    [reflexivity | vm_compute; reflexivity | reflexivity
    | repeat constructor | vm_compute; reflexivity |].
  exists r. split; [exact Hfit|].
  do 2 eexists. apply (Hrec 0%nat "x"%string); [reflexivity|].
  simpl. intros [H|[]]. discriminate H.
Defined.

(** Two rows of [x], with the intercept, against three of [y]. *)
Definition two_against_three : RegressionModel float :=
  mkModel (add_intercept x_two_rows) (YSeries y_three_rows) true "ols" None.

Lemma ols_fit_rejects_differing_row_counts_witness :
  (forall self', ols_regression two_against_three <> Ok self')
  /\ (forall z,
        solve (xtx (self_x two_against_three))
              (eye (snd (shape (self_x two_against_three)))) = Ok z ->
        ols_regression two_against_three
        = Raise (ValueError "matrices are not aligned"))
  /\ (forall e,
        solve (xtx (self_x two_against_three))
              (eye (snd (shape (self_x two_against_three)))) = Raise e ->
        ols_regression two_against_three = Raise e).
Proof.
  apply (ols_fit_rejects_differing_row_counts two_against_three
           (ys := y_three_rows)).
  - reflexivity.
  - simpl. lia.
Defined.

(** ** The closures *)

Lemma closures_read_by_position_witness :
  (length (s_index y4) <= length (df_index x4) ->
   (exists v, log_likelihood x4 y4 [0; 0] = Ok v)
   /\ (exists g, gradient x4 y4 [0; 0] = Ok g /\ length g = length [0; 0]))
  /\ (length (df_index x4) < length (s_index y4) ->
      log_likelihood x4 y4 [0; 0]
      = Raise (IndexError "single positional indexer is out-of-bounds")
      /\ gradient x4 y4 [0; 0]
         = Raise (IndexError "single positional indexer is out-of-bounds")).
Proof.
  apply (closures_read_by_position x4 (ys := y4) [0; 0]); reflexivity.
Defined.

(** Four rows of [x] against the two of [y_small]. *)
Lemma closures_ignore_later_rows_witness :
  log_likelihood x4 y_small [0; 0]
  = log_likelihood (head_rows (length (s_index y_small)) x4) y_small [0; 0]
  /\ gradient x4 y_small [0; 0]
     = gradient (head_rows (length (s_index y_small)) x4) y_small [0; 0].
Proof.
  apply (closures_ignore_later_rows x4 y_small [0; 0]). simpl. lia.
Defined.

(** ** The profit at 200 tickets *)

Lemma profit_in_binary64_witness :
  PrimFloat.leb (Tutorial.profit (of_Z 200)) (Tutorial.profit (of_Z 255)) = true
  /\ PrimFloat.eqb
       (PrimFloat.div
          (PrimFloat.sub (Tutorial.profit (of_Z (200 + 1)))
                         (Tutorial.profit (of_Z (200 - 1))))
          (of_Z 2))
       (of_Z (255 - 200)) = true
  /\ PrimFloat.eqb (Tutorial.Negated.profit (of_Z 200))
                   (PrimFloat.opp (Tutorial.profit (of_Z 200))) = true.
Proof. apply (ProfitFloats.profit_in_binary64 (q := 200%Z)). lia. Defined.

(** ** The summary of the integer fit *)

(** The integers have no exponential and no optimizer; an OLS fit calls
    neither. *)
Definition no_transcendental : Transcendental Z :=
  {| fexp := fun _ => 0%Z; flog := fun _ => 0%Z |}.

Definition no_minimizer : Minimizer Z :=
  {| minimize := fun _ _ _ => Unmodelled |}.

Definition olsZ_fitted : RegressionModel Z :=
  Eval vm_compute in
    match fit_model (TR := no_transcendental) (MI := no_minimizer) olsZ with
    | Ok (self', _) => self'
    | _ => olsZ
    end.

Definition olsZ_results : dict (dict Z) :=
  Eval vm_compute in
    match self_results olsZ_fitted with Some r => r | None => [] end.

Lemma summary_after_a_fit_witness :
  exists r lines,
    self_results olsZ_fitted = Some r
    /\ summary olsZ_fitted = (header_of (self_regression_type olsZ) :: lines, None)
    /\ length lines = length r
    /\ forall j name rec,
         nth_error r j = Some (name, rec) ->
         exists b s t p,
           rec = [("coefficient"%string, b); ("standard_error"%string, s);
                  (stat_key (self_regression_type olsZ), t);
                  ("p_value"%string, p)]
           /\ nth_error lines j
              = Some (row_line (coefficient_width (self_regression_type olsZ))
                               name b s t p).
Proof.
  apply (summary_after_a_fit (TR := no_transcendental) (MI := no_minimizer)
           olsZ (out := [])).
  vm_compute. reflexivity.
Defined.

Lemma summary_before_a_fit_witness :
  summary olsZ
  = ([header_of (self_regression_type olsZ)],
     Some (AttributeError "'RegressionModel' object has no attribute 'results'")).
Proof.
  apply (summary_before_a_fit (PyFrame xZ) (PySeries yZ) (PyBool false)
                              (PyStr "ols")).
  vm_compute. reflexivity.
Defined.

Lemma summary_row_width_witness :
  exists rec b s t p,
    dict_get olsZ_results "a" = Some rec
    /\ dict_get rec "coefficient" = Some b
    /\ dict_get rec "standard_error" = Some s
    /\ dict_get rec "t_stat" = Some t
    /\ dict_get rec "p_value" = Some p
    /\ ("a                        | -2           | 9              "
        ++ "| -1           | 0            ")%string
       = row_line 15 "a" b s t p
    /\ (25 + 15 + 17 + 15 + 15
        <= String.length
             ("a                        | -2           | 9              "
              ++ "| -1           | 0            "))%nat
    /\ String.length
         ("a                        | -2           | 9              "
          ++ "| -1           | 0            ")
       = (Nat.max (String.length "a") 25
          + Nat.max (2 + String.length (pystr (pyround b 3))) 15
          + Nat.max (2 + String.length (pystr (pyround s 3))) 17
          + Nat.max (2 + String.length (pystr (pyround t 3))) 15
          + Nat.max (2 + String.length (pystr (pyround p 3))) 15)%nat.
Proof.
  apply (summary_row_width "t_stat" 15 olsZ_results "a"). vm_compute. reflexivity.
Defined.
End MoreExamples.
